(** * py_mcp_client: session lifecycle, readiness poll and command loop

    A shallow embedding of [src/py_mcp_client/src/MCPClient.py],
    [src/py_mcp_client/client.py] and
    [src/py_mcp_client/src/figma_client.py].

    The Python code is effectful: it prints, sleeps, talks to a fastmcp
    [Client], and inspects and signals processes through [psutil].  Every
    such collaborator is a field of the [Host] record; the program itself is
    written in a small monad [M] that threads the state of the outside world,
    records the observable events in a trace and propagates Python
    exceptions. *)

From Stdlib Require Import String Ascii List ZArith NArith QArith Bool Arith Lia.
From Stdlib Require Import DecimalString Sorted Permutation.
Import ListNotations.
Set Warnings "-register-all".
Local Close Scope Q_scope.
Local Open Scope string_scope.
Local Open Scope list_scope.

(* ------------------------------------------------------------------ *)
(** ** Python strings

    A [str] is modelled as a [string] whose characters are the code points
    0..255; the whitespace and case tables below are Python's for that
    range. *)

Definition nl : string := String (ascii_of_nat 10) "".

(** f-string assembly: the pieces of the literal and the formatted values. *)
Definition cat (pieces : list string) : string := String.concat "" pieces.

(** [str.isspace] on one character. *)
Definition is_space (c : ascii) : bool :=
  let n := nat_of_ascii c in
  (((9 <=? n) && (n <=? 13)) || ((28 <=? n) && (n <=? 32))
   || (n =? 133) || (n =? 160))%nat.

(** [str.lower] on one character. *)
Definition lower_char (c : ascii) : ascii :=
  let n := nat_of_ascii c in
  if (((65 <=? n) && (n <=? 90))
      || ((192 <=? n) && (n <=? 222) && negb (n =? 215)))%nat
  then ascii_of_nat (n + 32) else c.

Fixpoint lower (s : string) : string :=
  match s with
  | EmptyString => EmptyString
  | String c s' => String (lower_char c) (lower s')
  end.

Fixpoint lstrip (s : string) : string :=
  match s with
  | EmptyString => EmptyString
  | String c s' => if is_space c then lstrip s' else s
  end.

Fixpoint rstrip (s : string) : string :=
  match s with
  | EmptyString => EmptyString
  | String c s' =>
      match rstrip s' with
      | EmptyString => if is_space c then EmptyString else String c EmptyString
      | r => String c r
      end
  end.

(** [str.strip()] *)
Definition strip (s : string) : string := rstrip (lstrip s).

(** [s.startswith(p)] *)
Fixpoint startswith (p s : string) : bool :=
  match p, s with
  | EmptyString, _ => true
  | String _ _, EmptyString => false
  | String a p', String b s' => Ascii.eqb a b && startswith p' s'
  end.

Fixpoint drop (n : nat) (s : string) : string :=
  match n, s with
  | O, _ => s
  | S _, EmptyString => EmptyString
  | S k, String _ s' => drop k s'
  end.

(** The first occurrence of [sep] in [s]: the text before it and the text
    after it. *)
Fixpoint partition_first (sep s : string) : option (string * string) :=
  if startswith sep s then Some (EmptyString, drop (String.length sep) s)
  else
    match s with
    | EmptyString => None
    | String c s' =>
        match partition_first sep s' with
        | Some (l, r) => Some (String c l, r)
        | None => None
        end
    end.

(** [s.split(sep, 1)]: one element when [sep] does not occur, else two. *)
Definition split_once (sep s : string) : list string :=
  match partition_first sep s with
  | Some (l, r) => [l; r]
  | None => [s]
  end.

(** [sub in s] on strings. *)
Definition contains (sub s : string) : bool :=
  match partition_first sub s with Some _ => true | None => false end.

(** [str(n)] for a non-negative [int]. *)
Definition str_nat (n : nat) : string := NilEmpty.string_of_uint (Nat.to_uint n).

(** [sorted] on a list of strings (code-point order). *)
Fixpoint insert_sorted (x : string) (l : list string) : list string :=
  match l with
  | [] => [x]
  | y :: l' => if String.leb x y then x :: l else y :: insert_sorted x l'
  end.

Definition sorted (l : list string) : list string :=
  fold_right insert_sorted [] l.

(* ------------------------------------------------------------------ *)
(** ** Python values

    What [json.loads] and [yaml.safe_load] return and what a tool takes as
    arguments.  A [float] is kept as its IEEE-754 binary64 bit pattern, a
    [dict] as its items in insertion order. *)

Inductive pyval : Type :=
| PNone
| PBool (b : bool)
| PInt (z : Z)
| PFloat (bits : Z)
| PStr (s : string)
| PList (l : list pyval)
| PDict (items : list (pyval * pyval)).

(** [bool(v)] *)
Definition truthy (v : pyval) : bool :=
  match v with
  | PNone => false
  | PBool b => b
  | PInt z => negb (z =? 0)%Z
  | PFloat bits => negb ((bits =? 0)%Z || (bits =? 0x8000000000000000)%Z)
  | PStr s => negb (s =? "")
  | PList l => match l with [] => false | _ => true end
  | PDict d => match d with [] => false | _ => true end
  end.

(** [v == True]: [True], [1] and [1.0] are equal to [True]. *)
Definition eq_True (v : pyval) : bool :=
  match v with
  | PBool b => b
  | PInt z => (z =? 1)%Z
  | PFloat bits => (bits =? 0x3FF0000000000000)%Z
  | _ => false
  end.

(** [isinstance(v, dict)] *)
Definition is_dict (v : pyval) : bool :=
  match v with PDict _ => true | _ => false end.

(** [type(v).__name__] *)
Definition type_name (v : pyval) : string :=
  match v with
  | PNone => "NoneType"
  | PBool _ => "bool"
  | PInt _ => "int"
  | PFloat _ => "float"
  | PStr _ => "str"
  | PList _ => "list"
  | PDict _ => "dict"
  end.

Definition key_is (k : string) (v : pyval) : bool :=
  match v with PStr s => s =? k | _ => false end.

(** [d.get(k)] for a string key [k]; [None] when the key is absent. *)
Fixpoint items_get (k : string) (items : list (pyval * pyval)) : pyval :=
  match items with
  | [] => PNone
  | (k', v) :: rest => if key_is k k' then v else items_get k rest
  end.

(** Truthiness of an optional string ([None] and [''] are falsy). *)
Definition truthy_str (s : option string) : bool :=
  match s with Some s' => negb (s' =? "") | None => false end.

(* ------------------------------------------------------------------ *)
(** ** A dict keyed by strings (the tool map) *)

Section Dict.
Context {V : Type}.

Definition dict : Type := list (string * V).

Fixpoint dict_get (k : string) (d : dict) : option V :=
  match d with
  | [] => None
  | (k', v) :: d' => if k' =? k then Some v else dict_get k d'
  end.

(** [k in d] *)
Definition dict_mem (k : string) (d : dict) : bool :=
  match dict_get k d with Some _ => true | None => false end.

(** [d[k] = v]: an existing key keeps its position. *)
Fixpoint dict_set (k : string) (v : V) (d : dict) : dict :=
  match d with
  | [] => [(k, v)]
  | (k', v') :: d' =>
      if k' =? k then (k, v) :: d' else (k', v') :: dict_set k v d'
  end.

Definition dict_keys (d : dict) : list string := map fst d.
End Dict.
Arguments dict V : clear implicits.

(* ------------------------------------------------------------------ *)
(** ** Exceptions, tools, responses, processes *)

(** The [Exception] subclasses the program meets. *)
Inductive exn_class : Type :=
| ImportError | NoSuchProcess | AccessDenied | UnboundLocalError
| JSONDecodeError | AttributeError | IndexError | KeyError
| EnvironmentError | RuntimeError | TypeError.

Definition exn_class_eqb (a b : exn_class) : bool :=
  match a, b with
  | ImportError, ImportError | NoSuchProcess, NoSuchProcess
  | AccessDenied, AccessDenied | UnboundLocalError, UnboundLocalError
  | JSONDecodeError, JSONDecodeError | AttributeError, AttributeError
  | IndexError, IndexError | KeyError, KeyError
  | EnvironmentError, EnvironmentError | RuntimeError, RuntimeError
  | TypeError, TypeError => true
  | _, _ => false
  end.

(** An exception object; [msg] is [str(e)]. *)
Record exn : Type := Exn { cls : exn_class; msg : string }.

(** One entry of a server's tool listing. *)
Record tool : Type := Tool {
  name : string;
  description : option string;
  inputSchema : pyval
}.

(** An item of [response.content]; reading [.text] of an item that is not
    text raises [AttributeError], whose message names the item's class. *)
Inductive content_block : Type :=
| TextContent (text : string)
| OtherContent (class_name : string).

(** The result object of [client.call_tool]. *)
Record call_tool_result : Type := CallToolResult {
  structured_content : pyval;
  content : list content_block;
  as_str : string          (* str(response) *)
}.

(** What [psutil.process_iter(['pid','ppid','name','cmdline'])] yields. *)
Record proc_info : Type := ProcInfo {
  pid : Z;
  ppid : option Z;
  cmdline : option (list string)
}.

(** A transport: supplied by the caller, or a [StdioTransport] that starts
    [command args] in [cwd] when the client connects. *)
Inductive transport : Type :=
| UserTransport (label : string)
| StdioTransport (command : option string) (args : list string)
                 (cwd : option string).

(** What one [prompt_async] call gives back. *)
Inductive prompt_result : Type :=
| PromptLine (line : string)
| PromptEOF                (* EOFError *)
| PromptInterrupt.         (* KeyboardInterrupt *)

(** Observable actions, in program order. *)
Inductive event : Type :=
| Print (s : string)
| Sleep (seconds : Q)
| Prompt
| ClientEnter (t : transport)
| ClientExit
| ListTools
| CallTool (tool_name : string) (arguments : pyval)
| TransportTerminate
| OpenProcess (p : Z)        (* psutil.Process(p) *)
| SendSignal (p : Z).        (* proc.send_signal(signal.SIGTERM) *)

(* ------------------------------------------------------------------ *)
(** ** The outside world *)

Record Host (W : Type) : Type := MkHost {
  (* json, yaml, formatting *)
  json_loads : string -> exn + pyval;
  yaml_safe_load : string -> exn + pyval;
  yaml_dump : pyval -> exn + string;
  py_str : pyval -> string;
  str_float : Q -> string;
  (* fastmcp *)
  client_enter : transport -> W -> (exn + unit) * W;
  client_exit : W -> (exn + unit) * W;
  client_list_tools : W -> (exn + list tool) * W;
  client_call_tool : string -> pyval -> W -> (exn + call_tool_result) * W;
  transport_terminate : W -> (exn + unit) * W;
  (* os, shutil, psutil *)
  shutil_which : string -> W -> option string;
  project_root : W -> string;
  os_getpid : W -> Z;
  psutil_importable : W -> bool;
  psutil_process_iter : W -> list (exn + proc_info);
  psutil_Process : Z -> W -> exn + unit;
  psutil_send_signal : Z -> W -> (exn + unit) * W;
  (* StdioTransport() called without an argument (MCPClient.py, lines 56
     and 180): the transport it returns or the exception it raises *)
  new_StdioTransport : exn + transport
}.
Arguments json_loads {W}.
Arguments yaml_safe_load {W}.
Arguments yaml_dump {W}.
Arguments py_str {W}.
Arguments str_float {W}.
Arguments client_enter {W}.
Arguments client_exit {W}.
Arguments client_list_tools {W}.
Arguments client_call_tool {W}.
Arguments transport_terminate {W}.
Arguments shutil_which {W}.
Arguments project_root {W}.
Arguments os_getpid {W}.
Arguments psutil_importable {W}.
Arguments psutil_process_iter {W}.
Arguments psutil_Process {W}.
Arguments psutil_send_signal {W}.
Arguments new_StdioTransport {W}.

(* ------------------------------------------------------------------ *)
(** ** The monad of the program

    A computation takes the state of the world and gives back a value or a
    raised exception, the events it performed, and the new state. *)

Definition M (W A : Type) : Type := W -> (exn + A) * list event * W.

Definition ret {W A} (a : A) : M W A := fun w => (inr a, [], w).

Definition bind {W A B} (m : M W A) (k : A -> M W B) : M W B := fun w =>
  match m w with
  | (inr a, tr, w') =>
      match k a w' with (r, tr', w'') => (r, tr ++ tr', w'') end
  | (inl e, tr, w') => (inl e, tr, w')
  end.

Definition raise {W A} (e : exn) : M W A := fun w => (inl e, [], w).

Definition emit {W} (ev : event) : M W unit := fun w => (inr tt, [ev], w).

(** A pure library call that may raise. *)
Definition lift {W A} (r : exn + A) : M W A := fun w => (r, [], w).

(** A call on a collaborator: logged as [ev], may raise, may change the
    world. *)
Definition external {W A} (ev : event) (f : W -> (exn + A) * W) : M W A :=
  fun w => match f w with (r, w') => (r, [ev], w') end.

Declare Scope py_scope.
Delimit Scope py_scope with py.
Notation "x <- c ;; k" := (bind c (fun x => k))
  (at level 61, c at next level, right associativity) : py_scope.
Notation "c ;; k" := (bind c (fun _ => k))
  (at level 61, right associativity) : py_scope.
Local Open Scope py_scope.

(** [try: body  except classes: handler].  The expression after [except] is
    evaluated only once [body] has raised, and evaluating it can itself
    raise; an exception it does not match propagates. *)
Definition try_except {W A} (body : M W A) (classes : M W (exn_class -> bool))
    (handler : exn -> M W A) : M W A := fun w =>
  match body w with
  | (inr a, tr, w1) => (inr a, tr, w1)
  | (inl e, tr, w1) =>
      match classes w1 with
      | (inr caught, tr2, w2) =>
          if caught (cls e)
          then match handler e w2 with
               | (r, tr3, w3) => (r, tr ++ tr2 ++ tr3, w3)
               end
          else (inl e, tr ++ tr2, w2)
      | (inl e', tr2, w2) => (inl e', tr ++ tr2, w2)
      end
  end.

(** [try: body  finally: fin], also the exit half of [async with]: [fin]
    runs however [body] ends; what [fin] raises replaces the outcome of
    [body]. *)
Definition try_finally {W A} (body : M W A) (fin : M W unit) : M W A := fun w =>
  match body w with
  | (r, tr, w1) =>
      match fin w1 with
      | (inr _, tr2, w2) => (r, tr ++ tr2, w2)
      | (inl e', tr2, w2) => (inl e', tr ++ tr2, w2)
      end
  end.

(** [async with enter as s: body], for an [__aexit__] that returns [None]. *)
Definition async_with {W S A} (enter : M W S) (aexit : S -> M W unit)
    (body : S -> M W A) : M W A :=
  s <- enter ;; try_finally (body s) (aexit s).

Fixpoint for_each {W A} (l : list A) (f : A -> M W unit) : M W unit :=
  match l with
  | [] => ret tt
  | x :: l' => f x ;; for_each l' f
  end.

(** [except Exception] *)
Definition any_Exception {W} : M W (exn_class -> bool) := ret (fun _ => true).

(** [except C] for a class [C] that is always bound. *)
Definition only {W} (c : exn_class) : M W (exn_class -> bool) :=
  ret (exn_class_eqb c).

(** How one iteration of a [while True] loop ends. *)
Inductive loop_ctl : Type := Continue | Break.

(** The session object of [MCPClient.py]. *)
Record MCPClient : Type := MkMCPClient {
  self_transport : transport;
  client : bool;                    (* self.client is not None *)
  server_pid : option Z;
  command_name : option string;
  script_path : option string;
  init_delay : Q
}.

Definition str_opt (s : option string) : string :=
  match s with Some s' => s' | None => "None" end.

(* ------------------------------------------------------------------ *)
(** ** MCPClient.py *)

Section Program.
Context {W : Type} (H : Host W).

Definition print (s : string) : M W unit := emit (Print s).
Definition sleep (seconds : Q) : M W unit := emit (Sleep seconds).

(** [_print_tool_list] (MCPClient.py 13-18, client.py 13-18) *)
Definition print_tool_list (tool_map : dict tool) : M W unit :=
  print (cat [nl; "Available tools:"]) ;;
  for_each (sorted (dict_keys tool_map)) (fun tool_name =>
    match dict_get tool_name tool_map with
    | Some tool_info =>
        print (cat ["  - "; name tool_info; ": ";
                    str_opt (description tool_info)])
    | None => raise (Exn KeyError tool_name)
    end).

(** [import psutil] *)
Definition import_psutil : M W unit := fun w =>
  if psutil_importable H w then ret tt w
  else raise (Exn ImportError "No module named 'psutil'") w.

(** The test of lines 27-29 on one process. *)
Definition matches_server (current_pid : Z) (command_name script_path : string)
    (p : proc_info) : bool :=
  match ppid p with Some pp => (pp =? current_pid)%Z | None => false end
  && match cmdline p with
     | Some (c0 :: c1 :: _) =>
         contains command_name c0 && contains script_path c1
     | _ => false
     end.

(** The [for] loop of lines 25-32; an entry [inl e] is a process whose
    inspection raises [e]. *)
Fixpoint scan_processes (current_pid : Z) (command_name script_path : string)
    (procs : list (exn + proc_info)) : exn + option Z :=
  match procs with
  | [] => inr None
  | inr p :: rest =>
      if matches_server current_pid command_name script_path p
      then inr (Some (pid p))
      else scan_processes current_pid command_name script_path rest
  | inl e :: rest =>
      match cls e with
      | NoSuchProcess | AccessDenied =>
          scan_processes current_pid command_name script_path rest
      | _ => inl e
      end
  end.

(** [find_server_pid] (lines 20-35) *)
Definition find_server_pid (command_name script_path : string)
    : M W (option Z) :=
  try_except
    (import_psutil ;;
     fun w => lift (scan_processes (os_getpid H w) command_name script_path
                      (psutil_process_iter H w)) w)
    (only ImportError)
    (fun _ => ret None).

(** [cleanup_server_process] (lines 37-45).  [psutil] is a local name bound
    by the [import] inside the [try]; the handler's tuple
    [(psutil.NoSuchProcess, ImportError, Exception)] reads it.  When the
    import has raised, the name is unbound and evaluating the tuple raises
    [UnboundLocalError]; when it has succeeded, the tuple contains
    [Exception] and matches everything. *)
Definition cleanup_server_process (server_pid : Z) : M W unit := fun w =>
  if (server_pid =? 0)%Z then ret tt w
  else if psutil_importable H w then
    try_except
      (external (OpenProcess server_pid)
                (fun w' => (psutil_Process H server_pid w', w')) ;;
       external (SendSignal server_pid) (psutil_send_signal H server_pid))
      any_Exception
      (fun _ => ret tt) w
  else
    try_except
      import_psutil
      (raise (Exn UnboundLocalError
         "cannot access local variable 'psutil' where it is not associated with a value"))
      (fun _ => ret tt) w.

(** [MCPClient.__init__] (lines 50-62): the attributes it assigns.  In the
    third branch the transport is the value of [StdioTransport()] where
    that call returns; the call itself, which can raise, is
    [MCPClient_new] below. *)
Definition MCPClient_init (transport : option transport)
    (command : option string) (args : option (list string))
    (cwd : option string) (init_delay : Q) : MCPClient :=
  {| self_transport :=
       match transport with
       | Some t => t
       | None =>
           if truthy_str command
           then StdioTransport command
                  (match args with Some a => a | None => [] end) cwd
           else StdioTransport None [] None
       end;
     client := false;
     server_pid := None;
     command_name := command;
     script_path := match args with Some (a :: _) => Some a | _ => None end;
     init_delay := init_delay |}.

(** The call [MCPClient(transport, command, args, cwd, init_delay)].  With
    neither a transport nor a command, line 56 calls [StdioTransport()];
    what that call raises leaves [__init__], and no session exists. *)
Definition MCPClient_new (transport : option transport)
    (command : option string) (args : option (list string))
    (cwd : option string) (init_delay : Q) : exn + MCPClient :=
  match transport with
  | Some _ => inr (MCPClient_init transport command args cwd init_delay)
  | None =>
      if truthy_str command
      then inr (MCPClient_init None command args cwd init_delay)
      else
        match new_StdioTransport H with
        | inl e => inl e
        | inr t => inr (MCPClient_init (Some t) command args cwd init_delay)
        end
  end.

(** [MCPClient.__aenter__] (lines 64-77) *)
Definition MCPClient_aenter (self : MCPClient) : M W MCPClient :=
  external (ClientEnter (self_transport self))
           (client_enter H (self_transport self)) ;;
  found <-
    (if truthy_str (command_name self) && truthy_str (script_path self)
     then find_server_pid (str_opt (command_name self))
                          (str_opt (script_path self))
     else ret (server_pid self)) ;;
  (if truthy_str (command_name self) && negb (Qle_bool (init_delay self) 0)
   then print (cat ["Waiting "; str_float H (init_delay self);
                    "s for server to initialize..."]) ;;
        sleep (init_delay self)
   else ret tt) ;;
  ret {| self_transport := self_transport self;
         client := true;
         server_pid := found;
         command_name := command_name self;
         script_path := script_path self;
         init_delay := init_delay self |}.

(** [MCPClient.__aexit__] (lines 79-86) *)
Definition MCPClient_aexit (self : MCPClient) : M W unit :=
  (if client self then external ClientExit (client_exit H) else ret tt) ;;
  match server_pid self with
  | Some p =>
      if (p =? 0)%Z then ret tt
      else cleanup_server_process p ;; sleep (1 # 2)
  | None => ret tt
  end.

(** [MCPClient.get_tools] (lines 88-91) *)
Definition get_tools : M W (dict tool) :=
  tools <- external ListTools (client_list_tools H) ;;
  ret (fold_left (fun d t => dict_set (name t) t d) tools []).

(** [MCPClient.call_tool] (lines 93-95) *)
Definition call_tool (tool_name : string) (arguments : pyval)
    : M W call_tool_result :=
  external (CallTool tool_name arguments)
           (client_call_tool H tool_name arguments).

(** [.text] of a content item *)
Definition text_of (c : content_block) : M W string :=
  match c with
  | TextContent t => ret t
  | OtherContent class_name =>
      raise (Exn AttributeError
               (cat ["'"; class_name; "' object has no attribute 'text'"]))
  end.

(** Lines 161-167: the rendering of a response. *)
Definition render_response (response : call_tool_result) : M W unit :=
  print "Server response:" ;;
  if truthy (structured_content response)
  then s <- lift (yaml_dump H (structured_content response)) ;; print s
  else
    match content response with
    | c :: _ => t <- text_of c ;; print t
    | [] => print (as_str response)
    end.

(** Lines 125-133: the help text of [help_tool_name], or the not-found
    message. *)
Definition help_lookup (tool_map : dict tool) (help_tool_name : string)
    : M W loop_ctl :=
  match dict_get help_tool_name tool_map with
  | Some tool_info =>
      print (cat [nl; "Tool: "; name tool_info]) ;;
      print (cat ["Description: "; str_opt (description tool_info)]) ;;
      print "Input Schema:" ;;
      s <- lift (yaml_dump H (inputSchema tool_info)) ;;
      print s ;;
      ret Continue
  | None =>
      print (cat ["Tool '"; help_tool_name; "' not found."]) ;;
      ret Continue
  end.

(** Lines 123-133: [help <tool_name>]; the name is
    [line.split(' ', 1)[1]]. *)
Definition help_tool (tool_map : dict tool) (line : string) : M W loop_ctl :=
  match split_once " " line with
  | _ :: help_tool_name :: _ => help_lookup tool_map help_tool_name
  | _ => raise (Exn IndexError "list index out of range")
  end.

(** Lines 136-167: the body of the inner [try]. *)
Definition invoke_tool (tool_map : dict tool) (line : string)
    : M W loop_ctl :=
  match split_once ", " line with
  | [p0; p1] =>
      let tool_name := strip p0 in
      let arguments_str := strip p1 in
      parsed <-
        try_except
          (arguments <- lift (json_loads H arguments_str) ;;
           ret (Some arguments))
          (only JSONDecodeError)
          (fun e =>
             print (cat ["Error parsing JSON arguments: "; msg e]) ;;
             ret None) ;;
      match parsed with
      | None => ret Continue
      | Some arguments =>
          if negb (is_dict arguments) then
            print "Invalid arguments format. Arguments must be a JSON dictionary." ;;
            ret Continue
          else if negb (dict_mem tool_name tool_map) then
            print (cat ["Tool '"; tool_name;
                        "' not found. Type 'help' for available tools."]) ;;
            ret Continue
          else
            print (cat ["Calling tool '"; tool_name; "' with arguments: ";
                        py_str H arguments]) ;;
            response <- call_tool tool_name arguments ;;
            render_response response ;;
            ret Continue
      end
  | _ =>
      print "Invalid command format. Please use 'tool_name, {arg1: value1, ...}'." ;;
      ret Continue
  end.

(** Lines 135-170: the inner [try] with its [except Exception]. *)
Definition try_invoke (tool_map : dict tool) (line : string)
    : M W loop_ctl :=
  try_except (invoke_tool tool_map line) any_Exception
    (fun e =>
       print (cat ["Error executing command: "; msg e]) ;;
       ret Continue).

(** Lines 111-170: what the loop does with one line read from the
    prompt. *)
Definition handle_line (tool_map : dict tool) (raw : string) : M W loop_ctl :=
  let line := strip raw in
  if line =? "" then ret Continue
  else if lower line =? "exit" then ret Break
  else if lower line =? "help" then
    print_tool_list tool_map ;; ret Continue
  else if startswith "help " (lower line) then help_tool tool_map line
  else try_invoke tool_map line.

(** Lines 108-175: the [while True] loop over what the prompt returns.
    An exhausted input is end of input ([EOFError]). *)
Fixpoint command_loop (tool_map : dict tool) (inputs : list prompt_result)
    : M W unit :=
  match inputs with
  | PromptLine raw :: rest =>
      emit Prompt ;;
      ctl <- handle_line tool_map raw ;;
      match ctl with
      | Continue => command_loop tool_map rest
      | Break => ret tt
      end
  | PromptEOF :: _ | PromptInterrupt :: _ | [] => emit Prompt
  end.

Definition print_banner : M W unit :=
  print (cat [nl; "Ready to receive commands."]) ;;
  print "Type 'help' for a list of tools." ;;
  print "Type 'help <tool_name>' for tool usage." ;;
  print "Type 'tool_name, {arg1: value1, arg2: value2}' to call a tool." ;;
  print "Type 'exit' to quit.".

(** [MCPClient.run_interactive_session] (lines 97-175) *)
Definition run_interactive_session (inputs : list prompt_result) : M W unit :=
  tool_map <- get_tools ;;
  print_banner ;;
  command_loop tool_map inputs.

(** [main] of MCPClient.py (lines 177-187).  Line 180 builds the transport
    with [StdioTransport()] before the [try] of line 181 is entered, so
    what that call raises leaves [main]. *)
Definition MCPClient_main (inputs : list prompt_result) : M W unit :=
  transport <- lift (new_StdioTransport H) ;;
  try_except
    (async_with
       (MCPClient_aenter (MCPClient_init (Some transport) None None None 2))
       MCPClient_aexit
       (fun _ =>
          print "MCP Client connected to server via STDIO." ;;
          run_interactive_session inputs))
    any_Exception
    (fun e => print (cat ["Error: "; msg e])).

(* ---------------------------------------------------------------- *)
(** ** figma_client.py *)

(** [get_figma_server_command] (lines 7-24): command, args, cwd. *)
Definition get_figma_server_command
    : M W (string * list string * string) := fun w =>
  match shutil_which H "node" w with
  | Some node_path =>
      if node_path =? ""
      then raise (Exn EnvironmentError
             "Node.js executable not found. Please ensure Node.js is installed and in your PATH.") w
      else ret (node_path, ["dist/index.js"], project_root H w) w
  | None =>
      raise (Exn EnvironmentError
        "Node.js executable not found. Please ensure Node.js is installed and in your PATH.") w
  end.

(** [main] of figma_client.py (lines 26-37) *)
Definition figma_client_main (inputs : list prompt_result) : M W unit :=
  server_config <- get_figma_server_command ;;
  match server_config with
  | (command, args, cwd) =>
      print (cat ["Project root: "; cwd]) ;;
      print (cat ["Running server command: "; command; " ";
                  hd "" args]) ;;
      try_except
        (async_with
           (MCPClient_aenter
              (MCPClient_init None (Some command) (Some args) (Some cwd) 2))
           MCPClient_aexit
           (fun _ =>
              print "MCP Client connected to Figma server via STDIO." ;;
              run_interactive_session inputs))
        any_Exception
        (fun e => print (cat ["Error: "; msg e]))
  end.

(* ---------------------------------------------------------------- *)
(** ** client.py *)

Definition status_arguments : pyval :=
  PDict [(PStr "operation", PStr "status")].

(** [status_data.get("connected")]: only a dict has [get]. *)
Definition get_connected (status_data : pyval) : M W pyval :=
  match status_data with
  | PDict items => ret (items_get "connected" items)
  | _ => raise (Exn AttributeError
                  (cat ["'"; type_name status_data;
                        "' object has no attribute 'get'"]))
  end.

Definition retry_suffix (retries max_retries : nat) : string :=
  cat ["Retrying in 1 second... ("; str_nat (retries + 1); "/";
       str_nat max_retries; ")"].

(** Lines 53-65: the body of the [try] of one poll iteration; the result
    is the new value of [plugin_connected]. *)
Definition check_plugin_status (retries max_retries : nat) : M W bool :=
  status_response <-
    external (CallTool "figma_plugin_status" status_arguments)
             (client_call_tool H "figma_plugin_status" status_arguments) ;;
  text <-
    match content status_response with
    | c :: _ => text_of c
    | [] => ret ""
    end ;;
  if negb (text =? "") then
    status_data <- lift (yaml_safe_load H text) ;;
    connected <-
      (if truthy status_data
       then v <- get_connected status_data ;; ret (eq_True v)
       else ret false) ;;
    if connected then
      print "Figma plugin connected!" ;; ret true
    else
      print (cat ["Plugin not yet connected. ";
                  retry_suffix retries max_retries]) ;;
      sleep 1 ;; ret false
  else
    print (cat ["Could not get plugin status. ";
                retry_suffix retries max_retries]) ;;
    sleep 1 ;; ret false.

Definition status_call : event :=
  CallTool "figma_plugin_status" status_arguments.

(** The connected-predicate of the poll, read off lines 55-58: the reply
    has a first content item with a non-empty text whose YAML document is a
    non-empty mapping with [connected] equal to [True]. *)
Definition reports_connected (reply : exn + call_tool_result) : bool :=
  match reply with
  | inr response =>
      match content response with
      | TextContent text :: _ =>
          negb (text =? "")
          && match yaml_safe_load H text with
             | inr (PDict items) =>
                 truthy (PDict items) && eq_True (items_get "connected" items)
             | _ => false
             end
      | _ => false
      end
  | inl _ => false
  end.

(** The world after one status call, and the reply to the [k]-th status
    call of a poll started in [w] (counting from 0). *)
Definition after_status_call (w : W) : W :=
  snd (client_call_tool H "figma_plugin_status" status_arguments w).

Definition nth_status_reply (k : nat) (w : W) : exn + call_tool_result :=
  fst (client_call_tool H "figma_plugin_status" status_arguments
         (Nat.iter k after_status_call w)).

(** Lines 52-69: one iteration of the poll loop. *)
Definition poll_once (retries max_retries : nat) : M W bool :=
  try_except (check_plugin_status retries max_retries) any_Exception
    (fun e =>
       print (cat ["Error checking plugin status: "; msg e; ". ";
                   retry_suffix retries max_retries]) ;;
       sleep 1 ;; ret false).

(** Lines 48-69: [while not plugin_connected and retries < max_retries].
    [remaining] is [max_retries - retries]; the result is
    [plugin_connected] when the loop ends. *)
Fixpoint wait_for_plugin (max_retries remaining : nat) : M W bool :=
  match remaining with
  | O => ret false
  | S remaining' =>
      plugin_connected <- poll_once (max_retries - remaining) max_retries ;;
      if plugin_connected then ret true
      else wait_for_plugin max_retries remaining'
  end.

(** Lines 74-154: the catalog and the command loop. *)
Definition catalog_and_loop (inputs : list prompt_result) : M W unit :=
  tools <- external ListTools (client_list_tools H) ;;
  let tool_map := fold_left (fun d t => dict_set (name t) t d) tools [] in
  print_banner ;;
  command_loop tool_map inputs.

(** Lines 46-154 with the bound of line 50 as a parameter: the poll, the
    warning, then the catalog and the command loop. *)
Definition client_session (max_retries : nat) (inputs : list prompt_result)
    : M W unit :=
  print "Waiting for Figma plugin to connect..." ;;
  plugin_connected <- wait_for_plugin max_retries max_retries ;;
  (if negb plugin_connected
   then print "Warning: Figma plugin did not connect within the expected time."
   else ret tt) ;;
  catalog_and_loop inputs.

(** [main] of client.py (lines 20-156) *)
Definition client_main (inputs : list prompt_result) : M W unit :=
  root <- (fun w => ret (project_root H w) w) ;;
  print (cat ["Project root: "; root]) ;;
  node_path <-
    (fun w =>
       match shutil_which H "node" w with
       | Some node_path =>
           if node_path =? ""
           then raise (Exn EnvironmentError
                  "Node.js executable not found. Please ensure Node.js is installed and in your PATH.") w
           else ret node_path w
       | None =>
           raise (Exn EnvironmentError
             "Node.js executable not found. Please ensure Node.js is installed and in your PATH.") w
       end) ;;
  let server_script := "dist/index.js" in
  print (cat ["Running server command: "; node_path; " "; server_script]) ;;
  let transport :=
    StdioTransport (Some node_path) [server_script] (Some root) in
  try_finally
    (async_with
       (external (ClientEnter transport) (client_enter H transport))
       (fun _ => external ClientExit (client_exit H))
       (fun _ =>
          print "MCP Client connected to server via STDIO." ;;
          print "Waiting for server to initialize..." ;;
          sleep 2 ;;
          client_session 30 inputs))
    (external TransportTerminate (transport_terminate H)).
End Program.

(* ------------------------------------------------------------------ *)
(** ** Reading a trace *)

(** The tool invocations that reached the transport, in order. *)
Fixpoint rpc_calls (tr : list event) : list (string * pyval) :=
  match tr with
  | [] => []
  | CallTool n a :: tr' => (n, a) :: rpc_calls tr'
  | _ :: tr' => rpc_calls tr'
  end.

(** The processes a SIGTERM was sent to, in order. *)
Fixpoint signals (tr : list event) : list Z :=
  match tr with
  | [] => []
  | SendSignal p :: tr' => p :: signals tr'
  | _ :: tr' => signals tr'
  end.

(** The delays waited, in order. *)
Fixpoint sleeps (tr : list event) : list Q :=
  match tr with
  | [] => []
  | Sleep q :: tr' => q :: sleeps tr'
  | _ :: tr' => sleeps tr'
  end.

(** The trace without what is printed. *)
Fixpoint actions (tr : list event) : list event :=
  match tr with
  | [] => []
  | Print _ :: tr' => actions tr'
  | ev :: tr' => ev :: actions tr'
  end.

Definition outcome {W A} (r : (exn + A) * list event * W) : exn + A :=
  fst (fst r).
Definition trace {W A} (r : (exn + A) * list event * W) : list event :=
  snd (fst r).
Definition world {W A} (r : (exn + A) * list event * W) : W := snd r.

(** A computation that reaches neither the server nor the world. *)
Definition quiet {W A : Type} (m : M W A) : Prop :=
  forall w, rpc_calls (trace (m w)) = [] /\ world (m w) = w.

(* ------------------------------------------------------------------ *)
(** ** A scripted world

    A small simulated host on which the program is run on concrete inputs:
    a server with a fixed tool list whose status tool reports the flag
    [sim_plugin], the table of child processes, and a script of outcomes
    for the successive closes of the client. *)

Record sim : Type := MkSim {
  sim_psutil : bool;                  (* psutil can be imported *)
  sim_children : list proc_info;      (* children in the process table *)
  sim_exits : list (exn + unit);      (* outcomes of the next client exits *)
  sim_plugin : bool;                  (* what the status tool reports *)
  sim_tools : list tool
}.

Definition sim_json_loads (s : string) : exn + pyval :=
  if s =? "{}" then inr (PDict [])
  else if s =? "[]" then inr (PList [])
  else if s =? "1" then inr (PInt 1)
  else inl (Exn JSONDecodeError "Expecting value: line 1 column 1 (char 0)").

Definition sim_yaml_safe_load (s : string) : exn + pyval :=
  if s =? "connected: true" then inr (PDict [(PStr "connected", PBool true)])
  else if s =? "connected: false"
  then inr (PDict [(PStr "connected", PBool false)])
  else inl (Exn RuntimeError "could not load the document").

Definition sim_py_str (v : pyval) : string :=
  match v with PDict [] => "{}" | _ => "<value>" end.

Definition sim_call_tool (tool_name : string) (arguments : pyval) (w : sim)
    : (exn + call_tool_result) * sim :=
  if tool_name =? "figma_plugin_status" then
    (inr (CallToolResult PNone
            [TextContent (if sim_plugin w then "connected: true"
                          else "connected: false")]
            "CallToolResult(status)"), w)
  else if tool_name =? "fail" then
    (inl (Exn RuntimeError "tool failed"), w)
  else
    (inr (CallToolResult PNone [TextContent "done"] "CallToolResult(done)"), w).

Definition sim_client_exit (w : sim) : (exn + unit) * sim :=
  match sim_exits w with
  | [] => (inr tt, w)
  | r :: rest =>
      (r, MkSim (sim_psutil w) (sim_children w) rest (sim_plugin w)
                (sim_tools w))
  end.

Definition sim_alive (p : Z) (w : sim) : bool :=
  existsb (fun c => (pid c =? p)%Z) (sim_children w).

Definition sim_Process (p : Z) (w : sim) : exn + unit :=
  if sim_alive p w then inr tt
  else inl (Exn NoSuchProcess "process no longer exists").

(** SIGTERM is delivered.  The child ends, but nothing in the program
    waits for it: it keeps its entry in the process table, where psutil
    still finds it. *)
Definition sim_send_signal (p : Z) (w : sim) : (exn + unit) * sim :=
  (inr tt, w).

(** [StdioTransport()] without its required [command] and [args]. *)
Definition sim_new_StdioTransport : exn + transport :=
  inl (Exn TypeError
         "StdioTransport.__init__() missing 2 required positional arguments: 'command' and 'args'").

Definition sim_host : Host sim :=
  {| json_loads := sim_json_loads;
     yaml_safe_load := sim_yaml_safe_load;
     yaml_dump := fun v => inr (sim_py_str v);
     py_str := sim_py_str;
     str_float := fun _ => "2.0";
     client_enter := fun _ w => (inr tt, w);
     client_exit := sim_client_exit;
     client_list_tools := fun w => (inr (sim_tools w), w);
     client_call_tool := sim_call_tool;
     transport_terminate := fun w => (inr tt, w);
     shutil_which := fun _ _ => Some "/usr/bin/node";
     project_root := fun _ => "/repo";
     os_getpid := fun _ => 100%Z;
     psutil_importable := sim_psutil;
     psutil_process_iter := fun w => map inr (sim_children w);
     psutil_Process := sim_Process;
     psutil_send_signal := sim_send_signal;
     new_StdioTransport := sim_new_StdioTransport |}.

Definition node_server : proc_info :=
  ProcInfo 4242 (Some 100%Z) (Some ["/usr/bin/node"; "dist/index.js"]).

(** The world after a session has launched its server. *)
Definition sim_launched : sim :=
  MkSim true [node_server] [] false
        [Tool "add" (Some "Add two numbers") (PDict []);
         Tool "Foo" (Some "A tool") (PDict []);
         Tool "fail" (Some "Always fails") (PDict []);
         Tool "help me" None (PDict [])].

(** The session object after [__aenter__] has connected [t] with the
    command line of [node_server] and recovered its pid. *)
Definition launched_session_on (t : transport) : MCPClient :=
  MkMCPClient t true (Some 4242%Z) (Some "/usr/bin/node")
              (Some "dist/index.js") 2.

(** The session that launched [node_server] itself. *)
Definition launched_session : MCPClient :=
  launched_session_on
    (StdioTransport (Some "/usr/bin/node") ["dist/index.js"] (Some "/repo")).

Definition sim_tool_map : dict tool :=
  fold_left (fun d t => dict_set (name t) t d) (sim_tools sim_launched) [].

(** The scripted worlds in which closing the client fails: at the first
    close ([sim_close_fails]) or at the second ([sim_second_close_fails]). *)
Definition sim_close_fails : sim :=
  MkSim true [node_server]
        [inl (Exn RuntimeError "transport close failed")]
        false (sim_tools sim_launched).

Definition sim_second_close_fails : sim :=
  MkSim true [node_server]
        [inr tt; inl (Exn RuntimeError "client is not connected")]
        false (sim_tools sim_launched).

(** The scripted world without psutil. *)
Definition sim_no_psutil : sim :=
  MkSim false [node_server] [] false (sim_tools sim_launched).

(* ------------------------------------------------------------------ *)
(** ** Further readings of a run *)

(** The events that open or release a resource. *)
Definition is_lifecycle (ev : event) : bool :=
  match ev with
  | ClientEnter _ | ClientExit | TransportTerminate
  | OpenProcess _ | SendSignal _ => true
  | _ => false
  end.

Definition lifecycle (tr : list event) : list event := filter is_lifecycle tr.

(** A computation that opens and releases nothing. *)
Definition holds_nothing {W A : Type} (m : M W A) : Prop :=
  forall w, lifecycle (trace (m w)) = [].

(** The line [_print_tool_list] prints for the key [k]. *)
Definition tool_line (tool_map : dict tool) (k : string) : string :=
  match dict_get k tool_map with
  | Some tool_info =>
      cat ["  - "; name tool_info; ": "; str_opt (description tool_info)]
  | None => ""
  end.

(** [{tool.name: tool for tool in tools}] (MCPClient.py 91, client.py 76) *)
Definition tool_map_of (tools : list tool) : dict tool :=
  fold_left (fun d t => dict_set (name t) t d) tools [].

(** The order of [sorted] on strings. *)
Definition str_le (a b : string) : Prop := String.leb a b = true.

(** The error of lines 14-15 of figma_client.py and 27-28 of client.py. *)
Definition node_missing : exn :=
  Exn EnvironmentError
    "Node.js executable not found. Please ensure Node.js is installed and in your PATH.".

(** A host with another [json.loads], [yaml.dump] or process listing. *)
Definition with_json_loads {W : Type} (f : string -> exn + pyval)
    (H : Host W) : Host W :=
  {| json_loads := f;
     yaml_safe_load := yaml_safe_load H;
     yaml_dump := yaml_dump H;
     py_str := py_str H;
     str_float := str_float H;
     client_enter := client_enter H;
     client_exit := client_exit H;
     client_list_tools := client_list_tools H;
     client_call_tool := client_call_tool H;
     transport_terminate := transport_terminate H;
     shutil_which := shutil_which H;
     project_root := project_root H;
     os_getpid := os_getpid H;
     psutil_importable := psutil_importable H;
     psutil_process_iter := psutil_process_iter H;
     psutil_Process := psutil_Process H;
     psutil_send_signal := psutil_send_signal H;
     new_StdioTransport := new_StdioTransport H |}.

Definition with_yaml_dump {W : Type} (f : pyval -> exn + string)
    (H : Host W) : Host W :=
  {| json_loads := json_loads H;
     yaml_safe_load := yaml_safe_load H;
     yaml_dump := f;
     py_str := py_str H;
     str_float := str_float H;
     client_enter := client_enter H;
     client_exit := client_exit H;
     client_list_tools := client_list_tools H;
     client_call_tool := client_call_tool H;
     transport_terminate := transport_terminate H;
     shutil_which := shutil_which H;
     project_root := project_root H;
     os_getpid := os_getpid H;
     psutil_importable := psutil_importable H;
     psutil_process_iter := psutil_process_iter H;
     psutil_Process := psutil_Process H;
     psutil_send_signal := psutil_send_signal H;
     new_StdioTransport := new_StdioTransport H |}.

Definition with_process_iter {W : Type} (f : W -> list (exn + proc_info))
    (H : Host W) : Host W :=
  {| json_loads := json_loads H;
     yaml_safe_load := yaml_safe_load H;
     yaml_dump := yaml_dump H;
     py_str := py_str H;
     str_float := str_float H;
     client_enter := client_enter H;
     client_exit := client_exit H;
     client_list_tools := client_list_tools H;
     client_call_tool := client_call_tool H;
     transport_terminate := transport_terminate H;
     shutil_which := shutil_which H;
     project_root := project_root H;
     os_getpid := os_getpid H;
     psutil_importable := psutil_importable H;
     psutil_process_iter := f;
     psutil_Process := psutil_Process H;
     psutil_send_signal := psutil_send_signal H;
     new_StdioTransport := new_StdioTransport H |}.

Definition with_which {W : Type} (f : string -> W -> option string)
    (H : Host W) : Host W :=
  {| json_loads := json_loads H;
     yaml_safe_load := yaml_safe_load H;
     yaml_dump := yaml_dump H;
     py_str := py_str H;
     str_float := str_float H;
     client_enter := client_enter H;
     client_exit := client_exit H;
     client_list_tools := client_list_tools H;
     client_call_tool := client_call_tool H;
     transport_terminate := transport_terminate H;
     shutil_which := f;
     project_root := project_root H;
     os_getpid := os_getpid H;
     psutil_importable := psutil_importable H;
     psutil_process_iter := psutil_process_iter H;
     psutil_Process := psutil_Process H;
     psutil_send_signal := psutil_send_signal H;
     new_StdioTransport := new_StdioTransport H |}.

Definition with_client_enter {W : Type}
    (f : transport -> W -> (exn + unit) * W) (H : Host W) : Host W :=
  {| json_loads := json_loads H;
     yaml_safe_load := yaml_safe_load H;
     yaml_dump := yaml_dump H;
     py_str := py_str H;
     str_float := str_float H;
     client_enter := f;
     client_exit := client_exit H;
     client_list_tools := client_list_tools H;
     client_call_tool := client_call_tool H;
     transport_terminate := transport_terminate H;
     shutil_which := shutil_which H;
     project_root := project_root H;
     os_getpid := os_getpid H;
     psutil_importable := psutil_importable H;
     psutil_process_iter := psutil_process_iter H;
     psutil_Process := psutil_Process H;
     psutil_send_signal := psutil_send_signal H;
     new_StdioTransport := new_StdioTransport H |}.

(** The double quote, and the argument text [{"a": 1, "b": 2}]. *)
Definition dq : string := String (ascii_of_nat 34) "".

Definition two_arguments : string :=
  cat ["{"; dq; "a"; dq; ": 1, "; dq; "b"; dq; ": 2}"].

(** The scripted host that also decodes [two_arguments]. *)
Definition sim_host_args : Host sim :=
  with_json_loads
    (fun s => if s =? two_arguments
              then inr (PDict [(PStr "a", PInt 1); (PStr "b", PInt 2)])
              else sim_json_loads s)
    sim_host.

(** The scripted host whose [yaml.dump] refuses a list. *)
Definition sim_host_strict : Host sim :=
  with_yaml_dump
    (fun v => match v with
              | PList _ => inl (Exn RuntimeError "cannot represent an object")
              | _ => inr (sim_py_str v)
              end)
    sim_host.

(** A tool map with a schema that [sim_host_strict] cannot dump. *)
Definition odd_tool_map : dict tool :=
  tool_map_of [Tool "add" (Some "Add two numbers") (PDict []);
               Tool "odd" None (PList [])].

(** The scripted host on which inspecting a process fails. *)
Definition sim_host_no_access : Host sim :=
  with_process_iter
    (fun _ => [inl (Exn RuntimeError "cannot read the process table")])
    sim_host.

(** The scripted host without Node.js, and the one that cannot connect. *)
Definition sim_host_no_node : Host sim :=
  with_which (fun _ _ => None) sim_host.

Definition sim_host_refused : Host sim :=
  with_client_enter
    (fun _ w => (inl (Exn RuntimeError "connection refused"), w))
    sim_host.

(** The world in which the plugin is connected. *)
Definition sim_plugged : sim :=
  MkSim true [node_server] [] true (sim_tools sim_launched).

(** A host with another outcome of [StdioTransport()]. *)
Definition with_new_StdioTransport {W : Type} (r : exn + transport)
    (H : Host W) : Host W :=
  {| json_loads := json_loads H;
     yaml_safe_load := yaml_safe_load H;
     yaml_dump := yaml_dump H;
     py_str := py_str H;
     str_float := str_float H;
     client_enter := client_enter H;
     client_exit := client_exit H;
     client_list_tools := client_list_tools H;
     client_call_tool := client_call_tool H;
     transport_terminate := transport_terminate H;
     shutil_which := shutil_which H;
     project_root := project_root H;
     os_getpid := os_getpid H;
     psutil_importable := psutil_importable H;
     psutil_process_iter := psutil_process_iter H;
     psutil_Process := psutil_Process H;
     psutil_send_signal := psutil_send_signal H;
     new_StdioTransport := r |}.

(** The scripted host on which [StdioTransport()] returns a transport. *)
Definition sim_host_default_transport : Host sim :=
  with_new_StdioTransport (inr (StdioTransport None [] None)) sim_host.

(** A host on which the plugin connects late: the world is the number of
    status calls that still report [connected: false]. *)
Definition late_call_tool (tool_name : string) (arguments : pyval) (w : nat)
    : (exn + call_tool_result) * nat :=
  if tool_name =? "figma_plugin_status" then
    (inr (CallToolResult PNone
            [TextContent (match w with
                          | O => "connected: true"
                          | S _ => "connected: false"
                          end)]
            "CallToolResult(status)"), Nat.pred w)
  else
    (inr (CallToolResult PNone [TextContent "done"] "CallToolResult(done)"), w).

Definition late_host : Host nat :=
  {| json_loads := sim_json_loads;
     yaml_safe_load := sim_yaml_safe_load;
     yaml_dump := fun v => inr (sim_py_str v);
     py_str := sim_py_str;
     str_float := fun _ => "2.0";
     client_enter := fun _ w => (inr tt, w);
     client_exit := fun w => (inr tt, w);
     client_list_tools := fun w => (inr (sim_tools sim_launched), w);
     client_call_tool := late_call_tool;
     transport_terminate := fun w => (inr tt, w);
     shutil_which := fun _ _ => Some "/usr/bin/node";
     project_root := fun _ => "/repo";
     os_getpid := fun _ => 100%Z;
     psutil_importable := fun _ => false;
     psutil_process_iter := fun _ => [];
     psutil_Process := fun _ _ =>
       inl (Exn NoSuchProcess "process no longer exists");
     psutil_send_signal := fun _ w => (inr tt, w);
     new_StdioTransport := sim_new_StdioTransport |}.

(* ------------------------------------------------------------------ *)
(** ** Facts about the string functions *)

Lemma lower_char_space (c : ascii) :
  lower_char c = " "%char -> c = " "%char.
Proof.
  destruct c as [[] [] [] [] [] [] [] []]; vm_compute; intro Hc;
    first [reflexivity | discriminate Hc].
Qed.

Lemma startswith_cons (a b : ascii) (p s : string) :
  startswith (String a p) (String b s) = Ascii.eqb a b && startswith p s.
Proof. reflexivity. Qed.

Lemma startswith_split (p s : string) :
  startswith p s = true -> s = (p ++ drop (String.length p) s)%string.
Proof.
  revert s. induction p as [|a p IH]; intros s Hp.
  - reflexivity.
  - destruct s as [|b s]; [discriminate|].
    rewrite startswith_cons in Hp. apply andb_prop in Hp as [Hab Hp].
    apply Ascii.eqb_eq in Hab as ->.
    simpl. f_equal. apply IH; assumption.
Qed.

Lemma startswith_append (p r : string) : startswith p (p ++ r) = true.
Proof.
  induction p as [|a p IH]; [reflexivity|].
  simpl append. rewrite startswith_cons, Ascii.eqb_refl. exact IH.
Qed.

Lemma partition_first_eq (sep s : string) :
  partition_first sep s =
  if startswith sep s then Some (EmptyString, drop (String.length sep) s)
  else match s with
       | EmptyString => None
       | String c s' =>
           match partition_first sep s' with
           | Some (l, r) => Some (String c l, r)
           | None => None
           end
       end.
Proof. destruct s; reflexivity. Qed.

(** What [partition_first] finds is a decomposition of the string around
    the separator. *)
Lemma partition_first_sound (sep s l r : string) :
  partition_first sep s = Some (l, r) -> s = (l ++ sep ++ r)%string.
Proof.
  revert l r. induction s as [|c s IH]; intros l r Hs;
    rewrite partition_first_eq in Hs;
    destruct (startswith sep _) eqn:Hp.
  - injection Hs as <- <-. apply startswith_split in Hp. exact Hp.
  - discriminate.
  - injection Hs as <- <-. apply startswith_split in Hp. exact Hp.
  - destruct (partition_first sep s) as [[l' r']|]; [|discriminate].
    injection Hs as <- <-. simpl. f_equal. apply IH. reflexivity.
Qed.

Lemma split_once_two (sep s p0 p1 : string) :
  split_once sep s = [p0; p1] -> partition_first sep s = Some (p0, p1).
Proof.
  unfold split_once. destruct (partition_first sep s) as [[l r]|]; intro Hs.
  - injection Hs as -> ->. reflexivity.
  - discriminate.
Qed.

Lemma startswith_separator_lower (s : string) :
  startswith ", " s = true -> startswith ", " (lower s) = true.
Proof.
  intro Hp. apply startswith_split in Hp. rewrite Hp.
  exact (startswith_append ", " (lower (drop 2 s))).
Qed.

(** Lowering a string keeps an occurrence of the separator. *)
Lemma lower_keeps_separator (s : string) :
  partition_first ", " s <> None -> partition_first ", " (lower s) <> None.
Proof.
  induction s as [|c s IH]; intro Hs.
  - exact Hs.
  - rewrite partition_first_eq in Hs. rewrite partition_first_eq.
    destruct (startswith ", " (String c s)) eqn:Hp.
    + rewrite (startswith_separator_lower _ Hp). discriminate.
    + destruct (startswith ", " (lower (String c s))); [discriminate|].
      simpl lower. cbv iota.
      destruct (partition_first ", " s) as [[l r]|]; [|congruence].
      destruct (partition_first ", " (lower s)) as [[l' r']|].
      * discriminate.
      * exfalso. apply IH; [discriminate|reflexivity].
Qed.

(** A line with the separator is neither empty nor a bare keyword. *)
Lemma separator_excludes_keywords (line : string) :
  partition_first ", " line <> None ->
  line <> "" /\ lower line <> "exit" /\ lower line <> "help".
Proof.
  intro Hs. split; [|split].
  - intros ->. apply Hs. reflexivity.
  - intro He. apply (lower_keeps_separator line Hs). rewrite He. reflexivity.
  - intro He. apply (lower_keeps_separator line Hs). rewrite He. reflexivity.
Qed.

(** A line that begins with the help keyword and a space, in any case: its
    first space is its fifth character. *)
Lemma help_line_split (line : string) :
  startswith "help " (lower line) = true ->
  split_once " " line = [String.substring 0 4 line; drop 5 line]
  /\ (line =? "") = false
  /\ (lower line =? "exit") = false
  /\ (lower line =? "help") = false.
Proof.
  intro Hp.
  destruct line as [|c1 [|c2 [|c3 [|c4 [|c5 rest]]]]]; simpl lower in Hp;
    repeat (rewrite startswith_cons in Hp; apply andb_prop in Hp as [? Hp]);
    try discriminate Hp.
  repeat match goal with
         | E : Ascii.eqb _ (lower_char _) = true |- _ =>
             apply Ascii.eqb_eq in E; symmetry in E
         end.
  assert (H5 : c5 = " "%char) by (apply lower_char_space; assumption).
  assert (Hns : forall c x, lower_char c = x -> x <> " "%char ->
                            Ascii.eqb " " c = false).
  { intros c x Hc Hx. destruct (Ascii.eqb_spec " " c) as [<-|]; [|reflexivity].
    exfalso. apply Hx. rewrite <- Hc. reflexivity. }
  split; [|split; [|split]].
  - unfold split_once.
    repeat (rewrite partition_first_eq, startswith_cons;
            erewrite Hns by (eassumption || discriminate);
            cbv beta iota; rewrite andb_false_l).
    subst c5. reflexivity.
  - reflexivity.
  - simpl lower.
    repeat match goal with
           | E : lower_char _ = _ |- _ => rewrite E; clear E
           end.
    reflexivity.
  - simpl lower.
    repeat match goal with
           | E : lower_char _ = _ |- _ => rewrite E; clear E
           end.
    reflexivity.
Qed.

Lemma lower_append (a b : string) :
  lower (a ++ b) = (lower a ++ lower b)%string.
Proof. induction a as [|c a IH]; simpl; [|rewrite IH]; reflexivity. Qed.

Lemma lower_length (s : string) : String.length (lower s) = String.length s.
Proof. induction s as [|c s IH]; simpl; [|rewrite IH]; reflexivity. Qed.

Lemma drop_append (a b : string) : drop (String.length a) (a ++ b) = b.
Proof. induction a as [|c a IH]; [destruct b|]; simpl; auto. Qed.

(* ------------------------------------------------------------------ *)
(** ** Running computations *)

(** Unfolds the monad so that a run computes as far as the collaborators'
    answers are known. *)
Ltac run :=
  unfold print, sleep, any_Exception, only;
  unfold try_except, try_finally, external, lift, emit, raise, bind, ret;
  cbn [fst snd outcome trace world app rpc_calls is_dict negb].

Section Quiet.
Context {W : Type}.

Lemma rpc_calls_app (a b : list event) :
  rpc_calls (a ++ b) = rpc_calls a ++ rpc_calls b.
Proof.
  induction a as [|ev a IH]; [reflexivity|].
  destruct ev; simpl; rewrite ?IH; reflexivity.
Qed.

Lemma actions_app (a b : list event) :
  actions (a ++ b) = actions a ++ actions b.
Proof.
  induction a as [|ev a IH]; [reflexivity|].
  destruct ev; simpl; rewrite ?IH; reflexivity.
Qed.

Lemma quiet_ret {A} (a : A) : quiet (@ret W A a).
Proof. intro w. split; reflexivity. Qed.

Lemma quiet_raise {A} (e : exn) : quiet (@raise W A e).
Proof. intro w. split; reflexivity. Qed.

Lemma quiet_lift {A} (r : exn + A) : quiet (@lift W A r).
Proof. intro w. split; reflexivity. Qed.

Lemma quiet_print (s : string) : quiet (@print W s).
Proof. intro w. split; reflexivity. Qed.

Lemma quiet_bind {A B} (m : M W A) (k : A -> M W B) :
  quiet m -> (forall a, quiet (k a)) -> quiet (bind m k).
Proof.
  intros Hm Hk w. unfold bind. specialize (Hm w).
  destruct (m w) as [[[e|a] tr] w1]; cbn [trace world fst snd] in Hm |- *.
  - exact Hm.
  - destruct Hm as [Htr ->]. specialize (Hk a w).
    destruct (k a w) as [[r tr'] w2]; cbn [trace world fst snd] in Hk |- *.
    rewrite rpc_calls_app, Htr. exact Hk.
Qed.
End Quiet.

Create HintDb quiet.
#[local] Hint Resolve quiet_ret quiet_raise quiet_lift quiet_print : quiet.

(* ------------------------------------------------------------------ *)
(** ** The command loop, branch by branch *)

Section Loop.
Context {W : Type} (H : Host W).

Lemma print_tool_list_quiet (tool_map : dict tool) :
  quiet (@print_tool_list W tool_map).
Proof.
  unfold print_tool_list. apply quiet_bind; [apply quiet_print|].
  intros _. induction (sorted (dict_keys tool_map)) as [|k keys IH].
  - apply quiet_ret.
  - simpl for_each. apply quiet_bind; [|intros _; exact IH].
    destruct (dict_get k tool_map); auto with quiet.
Qed.

Lemma help_lookup_quiet (tool_map : dict tool) (nm : string) :
  quiet (help_lookup H tool_map nm).
Proof.
  unfold help_lookup. destruct (dict_get nm tool_map);
    repeat (apply quiet_bind; [|intro]); auto with quiet.
Qed.

Lemma help_lookup_continues (tool_map : dict tool) (nm : string) (w : W) :
  outcome (help_lookup H tool_map nm w) <> inr Break.
Proof.
  unfold help_lookup.
  destruct (dict_get nm tool_map) as [tool_info|]; run.
  - destruct (yaml_dump H (inputSchema tool_info)); run; discriminate.
  - discriminate.
Qed.

Lemma handle_help_line (tool_map : dict tool) (raw : string) (w : W) :
  startswith "help " (lower (strip raw)) = true ->
  handle_line H tool_map raw w
  = help_lookup H tool_map (drop 5 (strip raw)) w.
Proof.
  intro Hp. unfold handle_line.
  destruct (help_line_split _ Hp) as (Hs & -> & -> & ->).
  rewrite Hp. unfold help_tool. rewrite Hs. reflexivity.
Qed.

Lemma handle_invocation_line (tool_map : dict tool) (raw : string) (w : W) :
  strip raw <> "" -> lower (strip raw) <> "exit" ->
  lower (strip raw) <> "help" ->
  startswith "help " (lower (strip raw)) = false ->
  handle_line H tool_map raw w = try_invoke H tool_map (strip raw) w.
Proof.
  intros H1 H2 H3 H4. unfold handle_line.
  destruct (String.eqb_spec (strip raw) ""); [contradiction|].
  destruct (String.eqb_spec (lower (strip raw)) "exit"); [contradiction|].
  destruct (String.eqb_spec (lower (strip raw)) "help"); [contradiction|].
  rewrite H4. reflexivity.
Qed.

Lemma invoke_no_separator (tool_map : dict tool) (line : string) (w : W) :
  partition_first ", " line = None ->
  try_invoke H tool_map line w
  = (inr Continue,
     [Print "Invalid command format. Please use 'tool_name, {arg1: value1, ...}'."],
     w).
Proof.
  intro Hs. unfold try_invoke, invoke_tool, split_once. rewrite Hs.
  reflexivity.
Qed.

Lemma invoke_bad_json (tool_map : dict tool) (line p0 p1 : string) (e : exn)
    (w : W) :
  split_once ", " line = [p0; p1] ->
  json_loads H (strip p1) = inl e ->
  exists reason,
    try_invoke H tool_map line w = (inr Continue, [Print reason], w).
Proof.
  intros Hs Hj. unfold try_invoke, invoke_tool. rewrite Hs. cbv zeta.
  rewrite Hj. run.
  destruct (exn_class_eqb JSONDecodeError (cls e)); run; eexists; reflexivity.
Qed.

Lemma invoke_not_object (tool_map : dict tool) (line p0 p1 : string)
    (v : pyval) (w : W) :
  split_once ", " line = [p0; p1] ->
  json_loads H (strip p1) = inr v -> is_dict v = false ->
  try_invoke H tool_map line w
  = (inr Continue,
     [Print "Invalid arguments format. Arguments must be a JSON dictionary."],
     w).
Proof.
  intros Hs Hj Hd. unfold try_invoke, invoke_tool. rewrite Hs. cbv zeta.
  rewrite Hj. run. rewrite Hd. reflexivity.
Qed.

Lemma invoke_unknown_tool (tool_map : dict tool) (line p0 p1 : string)
    (d : list (pyval * pyval)) (w : W) :
  split_once ", " line = [p0; p1] ->
  json_loads H (strip p1) = inr (PDict d) ->
  dict_mem (strip p0) tool_map = false ->
  try_invoke H tool_map line w
  = (inr Continue,
     [Print (cat ["Tool '"; strip p0;
                  "' not found. Type 'help' for available tools."])],
     w).
Proof.
  intros Hs Hj Hm. unfold try_invoke, invoke_tool. rewrite Hs. cbv zeta.
  rewrite Hj. run. rewrite Hm. reflexivity.
Qed.

(** A well-formed line for a known tool: announce, call, render; whatever
    the call or the rendering raises is printed. *)
Lemma invoke_known_tool (tool_map : dict tool) (line p0 p1 : string)
    (d : list (pyval * pyval)) (w : W) :
  split_once ", " line = [p0; p1] ->
  json_loads H (strip p1) = inr (PDict d) ->
  dict_mem (strip p0) tool_map = true ->
  outcome (try_invoke H tool_map line w) = inr Continue
  /\ rpc_calls (trace (try_invoke H tool_map line w))
     = [(strip p0, PDict d)]
  /\ world (try_invoke H tool_map line w)
     = snd (client_call_tool H (strip p0) (PDict d) w).
Proof.
  intros Hs Hj Hm. unfold try_invoke, invoke_tool. rewrite Hs.
  cbv zeta. rewrite Hj. unfold call_tool, render_response, text_of. run.
  rewrite Hm. run.
  destruct (client_call_tool H (strip p0) (PDict d) w) as [[e|resp] w1];
    run; [repeat split; reflexivity|].
  destruct (truthy (structured_content resp)).
  - destruct (yaml_dump H (structured_content resp)); run;
      repeat split; reflexivity.
  - destruct (content resp) as [|[t|] rest]; run; repeat split; reflexivity.
Qed.

Lemma command_loop_continue (tool_map : dict tool) (raw : string)
    (rest : list prompt_result) (w : W) :
  outcome (handle_line H tool_map raw w) = inr Continue ->
  command_loop H tool_map (PromptLine raw :: rest) w
  = (emit Prompt ;; handle_line H tool_map raw ;;
     command_loop H tool_map rest) w.
Proof.
  intro Ho. simpl command_loop. unfold bind, emit.
  destruct (handle_line H tool_map raw w) as [[[e|[]] tr] w1];
    simpl in Ho; try discriminate; reflexivity.
Qed.
End Loop.

(* ------------------------------------------------------------------ *)
(** ** The readiness poll *)

Section Poll.
Context {W : Type} (H : Host W).

(** One iteration sets [plugin_connected] exactly when the reply satisfies
    the connected-predicate; otherwise it prints one line and sleeps one
    second. *)
Lemma poll_once_spec (retries max_retries : nat) (w : W) :
  let reply := client_call_tool H "figma_plugin_status" status_arguments w in
  if reports_connected H (fst reply)
  then poll_once H retries max_retries w
       = (inr true, [status_call; Print "Figma plugin connected!"], snd reply)
  else exists line,
       poll_once H retries max_retries w
       = (inr false, [status_call; Print line; Sleep 1], snd reply).
Proof.
  cbv zeta. unfold poll_once, check_plugin_status, reports_connected,
    status_call, text_of, get_connected.
  run.
  destruct (client_call_tool H "figma_plugin_status" status_arguments w)
    as [[e|response] w1]; run.
  { eexists; reflexivity. }
  destruct (content response) as [|[text|] rest]; run;
    try (eexists; reflexivity).
  destruct (text =? ""); run; [eexists; reflexivity|].
  destruct (yaml_safe_load H text) as [e|status_data]; run;
    [eexists; reflexivity|].
  destruct status_data as [| | | | | |items]; run;
    try (match goal with
         | |- context [truthy ?v] => destruct (truthy v)
         end; run);
    try (eexists; reflexivity).
  destruct (eq_True (items_get "connected" items)); run;
    [reflexivity|eexists; reflexivity].
Qed.

Lemma wait_for_plugin_exhausts (max_retries remaining : nat) (w : W) :
  (forall k, k < remaining ->
     reports_connected H (nth_status_reply H k w) = false) ->
  exists tr,
    wait_for_plugin H max_retries remaining w
    = (inr false, tr, Nat.iter remaining (after_status_call H) w)
    /\ actions tr = concat (repeat [status_call; Sleep 1] remaining).
Proof.
  revert w. induction remaining as [|k IH]; intros w Hnever.
  - exists []. split; reflexivity.
  - simpl wait_for_plugin.
    pose proof (poll_once_spec (max_retries - S k) max_retries w) as Hp.
    cbv zeta in Hp.
    assert (H0 : reports_connected H
              (fst (client_call_tool H "figma_plugin_status"
                      status_arguments w)) = false)
      by (apply (Hnever 0); lia).
    rewrite H0 in Hp. destruct Hp as [line Hp].
    unfold bind at 1. rewrite Hp.
    destruct (IH (after_status_call H w)) as (tr & Hw & Ha).
    { intros j Hj. unfold nth_status_reply.
      rewrite <- Nat.iter_succ_r. apply (Hnever (S j)). lia. }
    unfold after_status_call at 1 in Hw. rewrite Hw.
    eexists. split.
    + rewrite Nat.iter_succ_r. reflexivity.
    + simpl. rewrite Ha. reflexivity.
Qed.
End Poll.

(* ------------------------------------------------------------------ *)
(** ** Entering and leaving a session *)

Section Lifecycle.
Context {W : Type} (H : Host W).

(** With [psutil] at hand the cleanup swallows whatever the lookup or the
    signal raises. *)
Lemma cleanup_with_psutil (p : Z) (w : W) :
  p <> 0%Z -> psutil_importable H w = true ->
  cleanup_server_process H p w
  = match psutil_Process H p w with
    | inl _ => (inr tt, [OpenProcess p], w)
    | inr _ => (inr tt, [OpenProcess p; SendSignal p],
                snd (psutil_send_signal H p w))
    end.
Proof.
  intros Hp Hi. unfold cleanup_server_process.
  destruct (Z.eqb_spec p 0); [contradiction|]. rewrite Hi. run.
  destruct (psutil_Process H p w) as [e|[]]; [reflexivity|].
  destruct (psutil_send_signal H p w) as [[e|[]] w1]; reflexivity.
Qed.

Lemma cleanup_without_psutil (p : Z) (w : W) :
  p <> 0%Z -> psutil_importable H w = false ->
  cleanup_server_process H p w
  = (inl (Exn UnboundLocalError
       "cannot access local variable 'psutil' where it is not associated with a value"),
     [], w).
Proof.
  intros Hp Hi. unfold cleanup_server_process, import_psutil.
  destruct (Z.eqb_spec p 0); [contradiction|]. rewrite Hi. run.
  rewrite Hi. reflexivity.
Qed.

(** The reverse lookup gives no match when [psutil] cannot be imported. *)
Lemma find_server_pid_without_psutil (command_name script_path : string)
    (w : W) :
  psutil_importable H w = false ->
  find_server_pid H command_name script_path w = (inr None, [], w).
Proof.
  intro Hi. unfold find_server_pid, import_psutil. run. rewrite Hi.
  reflexivity.
Qed.

(** The reverse lookup only reads. *)
Lemma find_server_pid_reads (command_name script_path : string) (w : W) :
  trace (find_server_pid H command_name script_path w) = []
  /\ world (find_server_pid H command_name script_path w) = w.
Proof.
  unfold find_server_pid, import_psutil. run.
  destruct (psutil_importable H w); run; [|split; reflexivity].
  destruct (scan_processes _ _ _ _) as [e|r]; run; [|split; reflexivity].
  destruct (exn_class_eqb ImportError (cls e)); split; reflexivity.
Qed.

Lemma aexit_steps (self : MCPClient) (p : Z) (w : W) :
  client self = true -> server_pid self = Some p -> p <> 0%Z ->
  MCPClient_aexit H self w
  = (external ClientExit (client_exit H) ;;
     cleanup_server_process H p ;; sleep (1 # 2)) w.
Proof.
  intros Hc Hs Hp. unfold MCPClient_aexit. rewrite Hc, Hs.
  destruct (Z.eqb_spec p 0); [contradiction|]. reflexivity.
Qed.

(** A session built without a command waits no delay. *)
Lemma aenter_without_command (t : option transport)
    (args : option (list string)) (cwd : option string) (d : Q) (w : W) :
  sleeps (trace (MCPClient_aenter H (MCPClient_init t None args cwd d) w))
  = [].
Proof.
  unfold MCPClient_aenter, MCPClient_init.
  cbn [self_transport client server_pid command_name script_path init_delay
       truthy_str andb].
  run. destruct (client_enter H _ w) as [[e|[]] w1]; reflexivity.
Qed.
End Lifecycle.

(* ------------------------------------------------------------------ *)
(** ** Properties of the command loop *)

(** C1, as amended.  For a line that does not begin with the help keyword
    and a space, whose stripped text splits at its first [", "] into a tool
    name and a text that [json.loads] decodes to a dict, and whose stripped
    tool name is a key of the tool map: the loop makes exactly one call, with
    that name and that dict, and ends the iteration with [Continue] whatever
    the call or the rendering of its result does, so that it prompts again
    and goes on with the rest of the input. *)
Theorem invocation_dispatches_parsed_object {W : Type} (H : Host W)
    (tool_map : dict tool) (raw p0 p1 : string) (d : list (pyval * pyval))
    (w : W) :
  startswith "help " (lower (strip raw)) = false ->
  split_once ", " (strip raw) = [p0; p1] ->
  json_loads H (strip p1) = inr (PDict d) ->
  dict_mem (strip p0) tool_map = true ->
  rpc_calls (trace (handle_line H tool_map raw w)) = [(strip p0, PDict d)]
  /\ outcome (handle_line H tool_map raw w) = inr Continue
  /\ forall rest,
       command_loop H tool_map (PromptLine raw :: rest) w
       = (emit Prompt ;; handle_line H tool_map raw ;;
          command_loop H tool_map rest) w.
Proof.
  intros Hh Hs Hj Hm.
  assert (Hsep : partition_first ", " (strip raw) <> None)
    by (rewrite (split_once_two _ _ _ _ Hs); discriminate).
  destruct (separator_excludes_keywords _ Hsep) as (H1 & H2 & H3).
  rewrite (handle_invocation_line H tool_map raw w H1 H2 H3 Hh).
  destruct (invoke_known_tool H tool_map (strip raw) p0 p1 d w Hs Hj Hm)
    as (Ho & Hc & _).
  split; [exact Hc|]. split; [exact Ho|].
  intro rest. apply command_loop_continue.
  rewrite (handle_invocation_line H tool_map raw w H1 H2 H3 Hh). exact Ho.
Qed.

Lemma invocation_dispatches_parsed_object_witness :
  startswith "help " (lower (strip "  add, {} ")) = false
  /\ split_once ", " (strip "  add, {} ") = ["add"; "{}"]
  /\ json_loads sim_host (strip "{}") = inr (PDict [])
  /\ dict_mem (strip "add") sim_tool_map = true
  /\ (rpc_calls (trace (handle_line sim_host sim_tool_map "  add, {} "
                          sim_launched))
      = [(strip "add", PDict [])]
      /\ outcome (handle_line sim_host sim_tool_map "  add, {} " sim_launched)
         = inr Continue
      /\ forall rest,
           command_loop sim_host sim_tool_map
             (PromptLine "  add, {} " :: rest) sim_launched
           = (emit Prompt ;;
              handle_line sim_host sim_tool_map "  add, {} " ;;
              command_loop sim_host sim_tool_map rest) sim_launched).
Proof.
  split; [reflexivity|]. split; [reflexivity|]. split; [reflexivity|].
  split; [reflexivity|].
  exact (invocation_dispatches_parsed_object sim_host sim_tool_map
           "  add, {} " "add" "{}" [] sim_launched
           eq_refl eq_refl eq_refl eq_refl).
Defined.

(** C1 as stated fails: the catalog has a tool named [help me], the line
    [help me, {}] has the shape [<tool>, <json-object>], and the loop treats
    it as a help request for [me, {}] and calls nothing. *)
Lemma help_named_tool_is_not_invoked :
  split_once ", " (strip "help me, {}") = ["help me"; "{}"]
  /\ json_loads sim_host (strip "{}") = inr (PDict [])
  /\ dict_mem (strip "help me") sim_tool_map = true
  /\ handle_line sim_host sim_tool_map "help me, {}" sim_launched
     = (inr Continue, [Print "Tool 'me, {}' not found."], sim_launched).
Proof. repeat split; reflexivity. Qed.

(** C9.  A line whose stripped, lowercased text begins with [help ] is a
    help lookup for everything after its first five characters; no tool is
    called and the loop is not left, also when that remainder holds a
    [", "] and a JSON object. *)
Theorem help_prefix_never_invokes {W : Type} (H : Host W)
    (tool_map : dict tool) (raw : string) (w : W) :
  startswith "help " (lower (strip raw)) = true ->
  handle_line H tool_map raw w
  = help_lookup H tool_map (drop 5 (strip raw)) w
  /\ rpc_calls (trace (handle_line H tool_map raw w)) = []
  /\ outcome (handle_line H tool_map raw w) <> inr Break.
Proof.
  intro Hp. rewrite (handle_help_line H tool_map raw w Hp).
  split; [reflexivity|]. split.
  - apply help_lookup_quiet.
  - apply help_lookup_continues.
Qed.

Lemma help_prefix_never_invokes_witness :
  startswith "help " (lower (strip " HeLp add, {}")) = true
  /\ (handle_line sim_host sim_tool_map " HeLp add, {}" sim_launched
      = help_lookup sim_host sim_tool_map (drop 5 (strip " HeLp add, {}"))
          sim_launched
      /\ rpc_calls (trace (handle_line sim_host sim_tool_map " HeLp add, {}"
                             sim_launched)) = []
      /\ outcome (handle_line sim_host sim_tool_map " HeLp add, {}"
                    sim_launched) <> inr Break).
Proof.
  split; [reflexivity|].
  exact (help_prefix_never_invokes sim_host sim_tool_map " HeLp add, {}"
           sim_launched eq_refl).
Defined.

(** C8.  The keywords are matched on the lowercased line, the tool name of
    [help <name>] as typed: a line that lowercases to [exit] leaves the loop,
    one that lowercases to [help] prints the tool list, and a line made of
    any spelling of the help keyword, a space and a name that is not a key
    of the tool map prints the not-found message for that very name,
    whatever other spellings of the name the map holds. *)
Theorem keywords_fold_case_lookup_is_exact {W : Type} (H : Host W)
    (tool_map : dict tool) (raw_exit raw_help raw_for kw nm : string)
    (w : W) :
  lower (strip raw_exit) = "exit" ->
  lower (strip raw_help) = "help" ->
  lower kw = "help" ->
  strip raw_for = (kw ++ " " ++ nm)%string ->
  dict_mem nm tool_map = false ->
  handle_line H tool_map raw_exit w = (inr Break, [], w)
  /\ handle_line H tool_map raw_help w
     = (print_tool_list tool_map ;; ret Continue) w
  /\ handle_line H tool_map raw_for w
     = (inr Continue, [Print (cat ["Tool '"; nm; "' not found."])], w).
Proof.
  intros He Hh Hk Hs Hm. split; [|split].
  - unfold handle_line.
    destruct (String.eqb_spec (strip raw_exit) "") as [E|_];
      [rewrite E in He; discriminate He|].
    rewrite He. reflexivity.
  - unfold handle_line.
    destruct (String.eqb_spec (strip raw_help) "") as [E|_];
      [rewrite E in Hh; discriminate Hh|].
    rewrite Hh. reflexivity.
  - assert (Hp : startswith "help " (lower (strip raw_for)) = true).
    { rewrite Hs, lower_append, Hk. reflexivity. }
    assert (Hd : drop 5 (strip raw_for) = nm).
    { rewrite Hs.
      destruct kw as [|c1 [|c2 [|c3 [|c4 [|c5 k]]]]]; simpl in Hk;
        try discriminate Hk.
      reflexivity. }
    rewrite (handle_help_line H tool_map raw_for w Hp), Hd.
    unfold help_lookup. unfold dict_mem in Hm.
    destruct (dict_get nm tool_map); [discriminate Hm|]. reflexivity.
Qed.

Lemma keywords_fold_case_lookup_is_exact_witness :
  lower (strip " EXIT ") = "exit"
  /\ lower (strip "Help") = "help"
  /\ lower "help" = "help"
  /\ strip "help foo" = ("help" ++ " " ++ "foo")%string
  /\ dict_mem "Foo" sim_tool_map = true
  /\ dict_mem "foo" sim_tool_map = false
  /\ (handle_line sim_host sim_tool_map " EXIT " sim_launched
      = (inr Break, [], sim_launched)
      /\ handle_line sim_host sim_tool_map "Help" sim_launched
         = (print_tool_list sim_tool_map ;; ret Continue) sim_launched
      /\ handle_line sim_host sim_tool_map "help foo" sim_launched
         = (inr Continue, [Print (cat ["Tool '"; "foo"; "' not found."])],
            sim_launched)).
Proof.
  do 6 (split; [reflexivity|]).
  exact (keywords_fold_case_lookup_is_exact sim_host sim_tool_map
           " EXIT " "Help" "help foo" "help" "foo" sim_launched
           eq_refl eq_refl eq_refl eq_refl eq_refl).
Defined.

(** C4, as amended.  A line without [", "], or whose right-hand part
    [json.loads] rejects, or whose JSON value is not a dict, never leads to
    a call; and when the line is neither empty nor the exit or help keyword
    nor a help request, the loop prints one reason, leaves the world as it
    was and goes on prompting. *)
Theorem malformed_line_is_rejected {W : Type} (H : Host W)
    (tool_map : dict tool) (raw : string) (w : W) :
  (partition_first ", " (strip raw) = None
   \/ exists p0 p1,
        split_once ", " (strip raw) = [p0; p1]
        /\ ((exists e, json_loads H (strip p1) = inl e)
            \/ exists v, json_loads H (strip p1) = inr v
                         /\ is_dict v = false)) ->
  rpc_calls (trace (handle_line H tool_map raw w)) = []
  /\ (strip raw <> "" -> lower (strip raw) <> "exit" ->
      lower (strip raw) <> "help" ->
      startswith "help " (lower (strip raw)) = false ->
      (exists reason,
         handle_line H tool_map raw w = (inr Continue, [Print reason], w))
      /\ forall rest,
           command_loop H tool_map (PromptLine raw :: rest) w
           = (emit Prompt ;; handle_line H tool_map raw ;;
              command_loop H tool_map rest) w).
Proof.
  intro Hbad.
  assert (Hrej : exists reason,
            try_invoke H tool_map (strip raw) w
            = (inr Continue, [Print reason], w)).
  { destruct Hbad as [Hn|(p0 & p1 & Hs & [[e Hj]|(v & Hj & Hd)])].
    - eexists. apply invoke_no_separator. exact Hn.
    - exact (invoke_bad_json H tool_map _ p0 p1 e w Hs Hj).
    - eexists. exact (invoke_not_object H tool_map _ p0 p1 v w Hs Hj Hd). }
  split.
  - unfold handle_line.
    destruct (strip raw =? ""); [reflexivity|].
    destruct (lower (strip raw) =? "exit"); [reflexivity|].
    destruct (lower (strip raw) =? "help").
    + apply (quiet_bind (print_tool_list tool_map) (fun _ => ret Continue));
        [apply print_tool_list_quiet|intro; apply quiet_ret].
    + destruct (startswith "help " (lower (strip raw))) eqn:Hp.
      * destruct (help_line_split _ Hp) as (Hs & _).
        unfold help_tool. rewrite Hs. apply help_lookup_quiet.
      * destruct Hrej as [reason ->]. reflexivity.
  - intros H1 H2 H3 H4.
    rewrite (handle_invocation_line H tool_map raw w H1 H2 H3 H4).
    split; [exact Hrej|].
    intro rest. apply command_loop_continue.
    rewrite (handle_invocation_line H tool_map raw w H1 H2 H3 H4).
    destruct Hrej as [reason ->]. reflexivity.
Qed.

Lemma malformed_line_is_rejected_witness :
  partition_first ", " (strip "add 1") = None
  /\ strip "add 1" <> ""
  /\ lower (strip "add 1") <> "exit"
  /\ lower (strip "add 1") <> "help"
  /\ startswith "help " (lower (strip "add 1")) = false
  /\ rpc_calls (trace (handle_line sim_host sim_tool_map "add 1" sim_launched))
     = []
  /\ (exists reason,
        handle_line sim_host sim_tool_map "add 1" sim_launched
        = (inr Continue, [Print reason], sim_launched))
  /\ forall rest,
       command_loop sim_host sim_tool_map (PromptLine "add 1" :: rest)
         sim_launched
       = (emit Prompt ;; handle_line sim_host sim_tool_map "add 1" ;;
          command_loop sim_host sim_tool_map rest) sim_launched.
Proof.
  assert (H1 : strip "add 1" <> "") by discriminate.
  assert (H2 : lower (strip "add 1") <> "exit") by discriminate.
  assert (H3 : lower (strip "add 1") <> "help") by discriminate.
  split; [reflexivity|].
  split; [exact H1|]. split; [exact H2|]. split; [exact H3|].
  split; [reflexivity|].
  destruct (malformed_line_is_rejected sim_host sim_tool_map "add 1"
              sim_launched (or_introl eq_refl)) as [Hc Hr].
  split; [exact Hc|]. exact (Hr H1 H2 H3 eq_refl).
Defined.

(** The other two kinds of malformed line, run on the scripted world. *)
Example rejected_invalid_json :
  handle_line sim_host sim_tool_map "add, {oops" sim_launched
  = (inr Continue,
     [Print "Error parsing JSON arguments: Expecting value: line 1 column 1 (char 0)"],
     sim_launched).
Proof. reflexivity. Qed.

Example rejected_json_array :
  handle_line sim_host sim_tool_map "add, []" sim_launched
  = (inr Continue,
     [Print "Invalid arguments format. Arguments must be a JSON dictionary."],
     sim_launched).
Proof. reflexivity. Qed.

(** C4 as stated fails: [exit] has no [", "], yet nothing is printed and
    the loop ends instead of prompting again (the line after it is never
    read). *)
Lemma exit_line_ends_the_loop :
  partition_first ", " (strip "exit") = None
  /\ handle_line sim_host sim_tool_map "exit" sim_launched
     = (inr Break, [], sim_launched)
  /\ command_loop sim_host sim_tool_map
       [PromptLine "exit"; PromptLine "add 1"] sim_launched
     = (inr tt, [Prompt], sim_launched).
Proof. repeat split; reflexivity. Qed.

(** C3, as amended.  The catalog check is made by the command loop: a line
    that reaches the invocation branch with a JSON object and a tool name
    that is not a key of the tool map prints the not-found message and calls
    nothing.  [call_tool] itself forwards any name to the client. *)
Theorem unknown_tool_is_rejected_by_the_loop {W : Type} (H : Host W)
    (tool_map : dict tool) (raw p0 p1 : string) (d : list (pyval * pyval))
    (w : W) :
  startswith "help " (lower (strip raw)) = false ->
  split_once ", " (strip raw) = [p0; p1] ->
  json_loads H (strip p1) = inr (PDict d) ->
  dict_mem (strip p0) tool_map = false ->
  handle_line H tool_map raw w
  = (inr Continue,
     [Print (cat ["Tool '"; strip p0;
                  "' not found. Type 'help' for available tools."])],
     w)
  /\ forall tool_name arguments w',
       call_tool H tool_name arguments w'
       = external (CallTool tool_name arguments)
           (client_call_tool H tool_name arguments) w'.
Proof.
  intros Hh Hs Hj Hm.
  assert (Hsep : partition_first ", " (strip raw) <> None)
    by (rewrite (split_once_two _ _ _ _ Hs); discriminate).
  destruct (separator_excludes_keywords _ Hsep) as (H1 & H2 & H3).
  rewrite (handle_invocation_line H tool_map raw w H1 H2 H3 Hh).
  split; [|reflexivity].
  exact (invoke_unknown_tool H tool_map (strip raw) p0 p1 d w Hs Hj Hm).
Qed.

Lemma unknown_tool_is_rejected_by_the_loop_witness :
  startswith "help " (lower (strip "nope, {}")) = false
  /\ split_once ", " (strip "nope, {}") = ["nope"; "{}"]
  /\ json_loads sim_host (strip "{}") = inr (PDict [])
  /\ dict_mem (strip "nope") sim_tool_map = false
  /\ (handle_line sim_host sim_tool_map "nope, {}" sim_launched
      = (inr Continue,
         [Print (cat ["Tool '"; strip "nope";
                      "' not found. Type 'help' for available tools."])],
         sim_launched)
      /\ forall tool_name arguments w',
           call_tool sim_host tool_name arguments w'
           = external (CallTool tool_name arguments)
               (client_call_tool sim_host tool_name arguments) w').
Proof.
  do 4 (split; [reflexivity|]).
  exact (unknown_tool_is_rejected_by_the_loop sim_host sim_tool_map
           "nope, {}" "nope" "{}" [] sim_launched
           eq_refl eq_refl eq_refl eq_refl).
Defined.

(** C3 as stated fails: [nope] is not in the catalog fetched from the
    server, and [call_tool] sends the request and returns the server's
    answer. *)
Lemma call_tool_forwards_unknown_name :
  get_tools sim_host sim_launched
  = (inr sim_tool_map, [ListTools], sim_launched)
  /\ dict_mem "nope" sim_tool_map = false
  /\ call_tool sim_host "nope" (PDict []) sim_launched
     = (inr (CallToolResult PNone [TextContent "done"] "CallToolResult(done)"),
        [CallTool "nope" (PDict [])], sim_launched).
Proof. repeat split; reflexivity. Qed.

(* ------------------------------------------------------------------ *)
(** ** Properties of the readiness poll *)

(** C5.  When none of the first [N] replies to the status call satisfies
    the connected-predicate (a call that raises does not), the poll bounded
    by [N] returns [False] without raising after exactly [N] status calls,
    each followed by a sleep of one second; the session then prints its
    warning and goes on to fetch the catalog and run the command loop. *)
Theorem poll_exhausts_then_session_proceeds {W : Type} (H : Host W)
    (N : nat) (inputs : list prompt_result) (w : W) :
  (forall k, k < N -> reports_connected H (nth_status_reply H k w) = false) ->
  let wN := Nat.iter N (after_status_call H) w in
  exists tr,
    wait_for_plugin H N N w = (inr false, tr, wN)
    /\ actions tr = concat (repeat [status_call; Sleep 1] N)
    /\ trace (client_session H N inputs w)
       = Print "Waiting for Figma plugin to connect..." :: tr
         ++ Print "Warning: Figma plugin did not connect within the expected time."
         :: trace (catalog_and_loop H inputs wN)
    /\ outcome (client_session H N inputs w)
       = outcome (catalog_and_loop H inputs wN).
Proof.
  intros Hnever wN.
  destruct (wait_for_plugin_exhausts H N N w Hnever) as (tr & Hw & Ha).
  exists tr. split; [exact Hw|]. split; [exact Ha|].
  unfold client_session. run. rewrite Hw. subst wN. run.
  destruct (catalog_and_loop H inputs _) as [[r tr'] w'].
  split; reflexivity.
Qed.

Lemma poll_exhausts_then_session_proceeds_witness :
  (forall k, k < 3 ->
     reports_connected sim_host (nth_status_reply sim_host k sim_launched)
     = false)
  /\ exists tr,
       wait_for_plugin sim_host 3 3 sim_launched
       = (inr false, tr, Nat.iter 3 (after_status_call sim_host) sim_launched)
       /\ actions tr = concat (repeat [status_call; Sleep 1] 3)
       /\ trace (client_session sim_host 3 [PromptLine "exit"] sim_launched)
          = Print "Waiting for Figma plugin to connect..." :: tr
            ++ Print "Warning: Figma plugin did not connect within the expected time."
            :: trace (catalog_and_loop sim_host [PromptLine "exit"]
                        (Nat.iter 3 (after_status_call sim_host) sim_launched))
       /\ outcome (client_session sim_host 3 [PromptLine "exit"] sim_launched)
          = outcome (catalog_and_loop sim_host [PromptLine "exit"]
                       (Nat.iter 3 (after_status_call sim_host) sim_launched)).
Proof.
  assert (Hnever : forall k, k < 3 ->
            reports_connected sim_host
              (nth_status_reply sim_host k sim_launched) = false).
  { intros k Hk.
    destruct k as [|[|[|k]]]; [reflexivity|reflexivity|reflexivity|lia]. }
  split; [exact Hnever|].
  exact (poll_exhausts_then_session_proceeds sim_host 3 [PromptLine "exit"]
           sim_launched Hnever).
Defined.

(** The same poll on the scripted world, event by event, with a plugin
    that never connects. *)
Example poll_three_attempts :
  wait_for_plugin sim_host 3 3 sim_launched
  = (inr false,
     [status_call;
      Print "Plugin not yet connected. Retrying in 1 second... (1/3)";
      Sleep 1;
      status_call;
      Print "Plugin not yet connected. Retrying in 1 second... (2/3)";
      Sleep 1;
      status_call;
      Print "Plugin not yet connected. Retrying in 1 second... (3/3)";
      Sleep 1],
     sim_launched).
Proof. reflexivity. Qed.

(* ------------------------------------------------------------------ *)
(** ** Properties of the session lifecycle *)

(** C2, as amended.  On leaving a session that has a client and a recovered
    server pid, the client is closed first.  If that raises, the exception
    goes to the caller and the process is not touched.  If it returns and
    psutil can be imported, the process is looked up and, when found, sent
    SIGTERM; whatever the lookup or the signal raises is dropped, a wait of
    half a second follows, and nothing is raised. *)
Theorem close_transport_then_process {W : Type} (H : Host W)
    (self : MCPClient) (p : Z) (w : W) :
  client self = true -> server_pid self = Some p -> p <> 0%Z ->
  match client_exit H w with
  | (inl e, w1) => MCPClient_aexit H self w = (inl e, [ClientExit], w1)
  | (inr _, w1) =>
      psutil_importable H w1 = true ->
      outcome (MCPClient_aexit H self w) = inr tt
      /\ trace (MCPClient_aexit H self w)
         = ClientExit :: OpenProcess p
           :: match psutil_Process H p w1 with
              | inr _ => [SendSignal p]
              | inl _ => []
              end ++ [Sleep (1 # 2)]
  end.
Proof.
  intros Hc Hs Hp.
  destruct (client_exit H w) as [[e|[]] w1] eqn:He.
  - rewrite (aexit_steps H self p w Hc Hs Hp). run. rewrite He. reflexivity.
  - intro Hi. rewrite (aexit_steps H self p w Hc Hs Hp). run. rewrite He.
    rewrite (cleanup_with_psutil H p w1 Hp Hi).
    destruct (psutil_Process H p w1); split; reflexivity.
Qed.

Lemma close_transport_then_process_witness :
  client launched_session = true
  /\ server_pid launched_session = Some 4242%Z
  /\ 4242%Z <> 0%Z
  /\ psutil_importable sim_host sim_launched = true
  /\ outcome (MCPClient_aexit sim_host launched_session sim_launched) = inr tt
  /\ trace (MCPClient_aexit sim_host launched_session sim_launched)
     = [ClientExit; OpenProcess 4242; SendSignal 4242; Sleep (1 # 2)].
Proof.
  assert (Hp : 4242%Z <> 0%Z) by discriminate.
  split; [reflexivity|]. split; [reflexivity|]. split; [exact Hp|].
  split; [reflexivity|].
  exact (close_transport_then_process sim_host launched_session 4242
           sim_launched eq_refl eq_refl Hp eq_refl).
Defined.

(** C2 as stated fails: the session launched a process that is still alive,
    closing the client raises, and the exception reaches the caller without
    any attempt on the process. *)
Lemma failed_close_skips_process_cleanup :
  client launched_session = true
  /\ server_pid launched_session = Some 4242%Z
  /\ sim_alive 4242 sim_close_fails = true
  /\ MCPClient_aexit sim_host launched_session sim_close_fails
     = (inl (Exn RuntimeError "transport close failed"), [ClientExit],
        MkSim true [node_server] [] false (sim_tools sim_launched)).
Proof. repeat split; reflexivity. Qed.

(** C6, as amended.  [__aexit__] keeps no record of having run and changes
    neither the client nor the pid of the session, so two closes in
    succession are two runs of the same steps, the second in the world the
    first has left.  The second close closes the client again; if that
    raises, the exception reaches the caller.  If it returns and psutil can
    be imported, the process is looked up again under the same pid and,
    whenever psutil still finds it, sent SIGTERM a second time; what the
    lookup or the signal raises is dropped, the half second is waited again
    and nothing is raised. *)
Theorem second_close_repeats_both_steps {W : Type} (H : Host W)
    (self : MCPClient) (p : Z) (w : W) :
  client self = true -> server_pid self = Some p -> p <> 0%Z ->
  outcome (MCPClient_aexit H self w) = inr tt ->
  let first := MCPClient_aexit H self w in
  let second := MCPClient_aexit H self (world first) in
  (MCPClient_aexit H self ;; MCPClient_aexit H self) w
  = (outcome second, trace first ++ trace second, world second)
  /\ match client_exit H (world first) with
     | (inl e, w2) => second = (inl e, [ClientExit], w2)
     | (inr _, w2) =>
         psutil_importable H w2 = true ->
         outcome second = inr tt
         /\ trace second
            = ClientExit :: OpenProcess p
              :: match psutil_Process H p w2 with
                 | inr _ => [SendSignal p]
                 | inl _ => []
                 end ++ [Sleep (1 # 2)]
         /\ signals (trace second)
            = match psutil_Process H p w2 with
              | inr _ => [p]
              | inl _ => []
              end
     end.
Proof.
  intros Hc Hs Hp Hr first second. split.
  - subst second first. unfold bind at 1.
    destruct (MCPClient_aexit H self w) as [[r tr] w1] eqn:E.
    cbn [outcome trace world fst snd] in Hr |- *. subst r.
    destruct (MCPClient_aexit H self w1) as [[r2 tr2] w2]. reflexivity.
  - subst second. generalize (world first). intro w1.
    destruct (client_exit H w1) as [[e|[]] w2] eqn:He.
    + rewrite (aexit_steps H self p w1 Hc Hs Hp). run. rewrite He.
      reflexivity.
    + intro Hi. rewrite (aexit_steps H self p w1 Hc Hs Hp). run. rewrite He.
      rewrite (cleanup_with_psutil H p w2 Hp Hi).
      destruct (psutil_Process H p w2); repeat split; reflexivity.
Qed.

Lemma second_close_repeats_both_steps_witness :
  client launched_session = true
  /\ server_pid launched_session = Some 4242%Z
  /\ 4242%Z <> 0%Z
  /\ outcome (MCPClient_aexit sim_host launched_session sim_launched) = inr tt
  /\ (MCPClient_aexit sim_host launched_session ;;
      MCPClient_aexit sim_host launched_session) sim_launched
     = (inr tt,
        [ClientExit; OpenProcess 4242; SendSignal 4242; Sleep (1 # 2);
         ClientExit; OpenProcess 4242; SendSignal 4242; Sleep (1 # 2)],
        sim_launched)
  /\ signals (trace (MCPClient_aexit sim_host launched_session
                       (world (MCPClient_aexit sim_host launched_session
                                 sim_launched)))) = [4242%Z].
Proof.
  assert (Hp : 4242%Z <> 0%Z) by discriminate.
  pose proof (second_close_repeats_both_steps sim_host launched_session 4242
                sim_launched eq_refl eq_refl Hp eq_refl) as [Hboth Hsecond].
  split; [reflexivity|]. split; [reflexivity|]. split; [exact Hp|].
  split; [reflexivity|]. split; [exact Hboth|].
  exact (proj2 (proj2 (Hsecond eq_refl))).
Defined.

(** C6 as stated fails.  The first close returns and has sent SIGTERM to
    the launched process; the process has ended but still has its entry in
    the process table, since the program never waits for it.  The second
    close looks the pid up, finds it, and sends SIGTERM a second time. *)
Lemma second_close_signals_again :
  outcome (MCPClient_aexit sim_host launched_session sim_launched) = inr tt
  /\ signals (trace (MCPClient_aexit sim_host launched_session sim_launched))
     = [4242%Z]
  /\ psutil_Process sim_host 4242
       (world (MCPClient_aexit sim_host launched_session sim_launched))
     = inr tt
  /\ MCPClient_aexit sim_host launched_session
       (world (MCPClient_aexit sim_host launched_session sim_launched))
     = (inr tt, [ClientExit; OpenProcess 4242; SendSignal 4242; Sleep (1 # 2)],
        sim_launched).
Proof. repeat split; reflexivity. Qed.

(** The second close also raises when closing the client again raises. *)
Example second_close_can_fail :
  outcome (MCPClient_aexit sim_host launched_session sim_second_close_fails)
  = inr tt
  /\ outcome (MCPClient_aexit sim_host launched_session
                (world (MCPClient_aexit sim_host launched_session
                          sim_second_close_fails)))
     = inl (Exn RuntimeError "client is not connected").
Proof. split; reflexivity. Qed.

(** C7: the code departs from the claim.  A session built on a transport
    supplied by the caller, together with a non-empty command, keeps that
    transport and still waits the initialization delay after connecting. *)
Theorem init_delay_waited_on_supplied_transport {W : Type} (H : Host W)
    (t : transport) (command : string) (args : option (list string))
    (cwd : option string) (d : Q) (w : W) (self' : MCPClient) :
  command <> "" -> Qle_bool d 0 = false ->
  outcome (MCPClient_aenter H
             (MCPClient_init (Some t) (Some command) args cwd d) w)
  = inr self' ->
  self_transport self' = t
  /\ sleeps (trace (MCPClient_aenter H
                      (MCPClient_init (Some t) (Some command) args cwd d) w))
     = [d].
Proof.
  intros Hc Hd. unfold MCPClient_aenter, MCPClient_init.
  cbn [self_transport client server_pid command_name script_path init_delay
       truthy_str].
  destruct (String.eqb_spec command "") as [E|_]; [contradiction|].
  rewrite Hd. cbn [negb andb]. run.
  destruct (client_enter H t w) as [[e|[]] w1]; [discriminate|].
  assert (Hf : forall m : M W (option Z),
            (forall w0, trace (m w0) = [] /\ world (m w0) = w0) ->
            forall r tr w2, m w1 = (r, tr, w2) -> tr = [] /\ w2 = w1).
  { intros m Hm r tr w2 Em. specialize (Hm w1). rewrite Em in Hm. exact Hm. }
  destruct (truthy_str _).
  - destruct (find_server_pid H _ _ w1) as [[[e|found] tr] w2] eqn:Ef;
      destruct (Hf _ (find_server_pid_reads H _ _) _ _ _ Ef) as [-> ->];
      cbn [fst snd outcome]; intro Ho; [discriminate Ho|].
    injection Ho as <-. split; reflexivity.
  - cbn [fst snd outcome]. intro Ho. injection Ho as <-. split; reflexivity.
Qed.

Lemma init_delay_waited_on_supplied_transport_witness :
  "/usr/bin/node" <> ""
  /\ Qle_bool 2 0 = false
  /\ self_transport (launched_session_on (UserTransport "attached"))
     = UserTransport "attached"
  /\ sleeps (trace (MCPClient_aenter sim_host
                      (MCPClient_init (Some (UserTransport "attached"))
                         (Some "/usr/bin/node") (Some ["dist/index.js"])
                         (Some "/repo") 2) sim_launched))
     = [2%Q].
Proof.
  assert (Hc : "/usr/bin/node" <> "") by discriminate.
  split; [exact Hc|]. split; [reflexivity|].
  exact (init_delay_waited_on_supplied_transport sim_host
           (UserTransport "attached") "/usr/bin/node"
           (Some ["dist/index.js"]) (Some "/repo") 2 sim_launched
           (launched_session_on (UserTransport "attached"))
           Hc eq_refl eq_refl).
Defined.

(** With psutil at hand the cleanup returns normally for every pid, whether
    the process exists, is gone, or the signal fails. *)
Lemma cleanup_returns_with_psutil {W : Type} (H : Host W) (p : Z) (w : W) :
  psutil_importable H w = true ->
  outcome (cleanup_server_process H p w) = inr tt.
Proof.
  intro Hi. destruct (Z.eq_dec p 0) as [->|Hp]; [reflexivity|].
  rewrite (cleanup_with_psutil H p w Hp Hi).
  destruct (psutil_Process H p w); reflexivity.
Qed.

(** C10: the code departs from the claim.  When psutil cannot be imported,
    the reverse lookup does return no match, but the cleanup of a non-zero
    pid does not return: its handler names [psutil.NoSuchProcess] while
    [psutil] is unbound, and the [UnboundLocalError] that this raises leaves
    the function. *)
Theorem cleanup_raises_without_psutil {W : Type} (H : Host W) (p : Z)
    (command_name script_path : string) (w : W) :
  p <> 0%Z -> psutil_importable H w = false ->
  find_server_pid H command_name script_path w = (inr None, [], w)
  /\ cleanup_server_process H p w
     = (inl (Exn UnboundLocalError
          "cannot access local variable 'psutil' where it is not associated with a value"),
        [], w).
Proof.
  intros Hp Hi. split.
  - apply find_server_pid_without_psutil. exact Hi.
  - apply cleanup_without_psutil; assumption.
Qed.

Lemma cleanup_raises_without_psutil_witness :
  4242%Z <> 0%Z
  /\ psutil_importable sim_host sim_no_psutil = false
  /\ find_server_pid sim_host "/usr/bin/node" "dist/index.js" sim_no_psutil
     = (inr None, [], sim_no_psutil)
  /\ cleanup_server_process sim_host 4242 sim_no_psutil
     = (inl (Exn UnboundLocalError
          "cannot access local variable 'psutil' where it is not associated with a value"),
        [], sim_no_psutil).
Proof.
  assert (Hp : 4242%Z <> 0%Z) by discriminate.
  split; [exact Hp|]. split; [reflexivity|].
  exact (cleanup_raises_without_psutil sim_host 4242 "/usr/bin/node"
           "dist/index.js" sim_no_psutil Hp eq_refl).
Defined.

(* ------------------------------------------------------------------ *)
(** ** Whole runs on the scripted world *)

(** Entering the session of figma_client.py finds the server among the
    children and waits the delay. *)
Example figma_session_enters :
  MCPClient_aenter sim_host
    (MCPClient_init None (Some "/usr/bin/node") (Some ["dist/index.js"])
       (Some "/repo") 2) sim_launched
  = (inr launched_session,
     [ClientEnter (StdioTransport (Some "/usr/bin/node") ["dist/index.js"]
                     (Some "/repo"));
      Print "Waiting 2.0s for server to initialize...";
      Sleep 2],
     sim_launched).
Proof. reflexivity. Qed.

(** [main] of MCPClient.py, where [StdioTransport()] returns a transport,
    attaches to it: no delay, no signal. *)
Example attached_session_run :
  actions (trace (MCPClient_main sim_host_default_transport
                    [PromptLine "add, {}"; PromptLine "fail, {}";
                     PromptLine "exit"] sim_launched))
  = [ClientEnter (StdioTransport None [] None); ListTools;
     Prompt; CallTool "add" (PDict []);
     Prompt; CallTool "fail" (PDict []);
     Prompt; ClientExit].
Proof. reflexivity. Qed.

(** Where [StdioTransport()] raises, so does [main], before it has printed
    or connected anything. *)
Example attached_session_without_transport :
  MCPClient_main sim_host [PromptLine "add, {}"; PromptLine "exit"]
    sim_launched
  = (inl (Exn TypeError
            "StdioTransport.__init__() missing 2 required positional arguments: 'command' and 'args'"),
     [], sim_launched).
Proof. reflexivity. Qed.

(** [MCPClient()] with neither a transport nor a command raises what
    [StdioTransport()] raises; with a command the session is built. *)
Example session_needs_transport_or_command :
  MCPClient_new sim_host None None None None 2
  = inl (Exn TypeError
           "StdioTransport.__init__() missing 2 required positional arguments: 'command' and 'args'")
  /\ MCPClient_new sim_host None (Some "/usr/bin/node")
       (Some ["dist/index.js"]) (Some "/repo") 2
     = inr (MkMCPClient
              (StdioTransport (Some "/usr/bin/node") ["dist/index.js"]
                 (Some "/repo"))
              false None (Some "/usr/bin/node") (Some "dist/index.js") 2).
Proof. split; reflexivity. Qed.

(** [main] of figma_client.py: connect, wait, serve the commands, close the
    client, signal the server. *)
Example figma_client_run :
  actions (trace (figma_client_main sim_host
                    [PromptLine "help"; PromptLine "add, {}"] sim_launched))
  = [ClientEnter (StdioTransport (Some "/usr/bin/node") ["dist/index.js"]
                    (Some "/repo"));
     Sleep 2; ListTools; Prompt; Prompt; CallTool "add" (PDict []);
     Prompt; ClientExit; OpenProcess 4242; SendSignal 4242; Sleep (1 # 2)].
Proof. reflexivity. Qed.

(** A call that raises is reported and the loop goes on. *)
Example failing_call_is_reported :
  handle_line sim_host sim_tool_map "fail, {}" sim_launched
  = (inr Continue,
     [Print "Calling tool 'fail' with arguments: {}";
      CallTool "fail" (PDict []);
      Print "Error executing command: tool failed"],
     sim_launched).
Proof. reflexivity. Qed.

(* ------------------------------------------------------------------ *)
(** ** What a run holds: connections, processes *)

Section HoldsNothing.
Context {W : Type}.

Lemma lifecycle_app (a b : list event) :
  lifecycle (a ++ b) = lifecycle a ++ lifecycle b.
Proof. apply filter_app. Qed.

Lemma holds_nothing_ret {A} (a : A) : holds_nothing (@ret W A a).
Proof. intro w. reflexivity. Qed.

Lemma holds_nothing_raise {A} (e : exn) : holds_nothing (@raise W A e).
Proof. intro w. reflexivity. Qed.

Lemma holds_nothing_lift {A} (r : exn + A) : holds_nothing (@lift W A r).
Proof. intro w. reflexivity. Qed.

Lemma holds_nothing_emit (ev : event) :
  is_lifecycle ev = false -> holds_nothing (@emit W ev).
Proof. intros Hev w. unfold emit, lifecycle. simpl. rewrite Hev. reflexivity. Qed.

Lemma holds_nothing_external {A} (ev : event) (f : W -> (exn + A) * W) :
  is_lifecycle ev = false -> holds_nothing (external ev f).
Proof.
  intros Hev w. unfold external. destruct (f w) as [r w1].
  unfold lifecycle. simpl. rewrite Hev. reflexivity.
Qed.

Lemma holds_nothing_bind {A B} (m : M W A) (k : A -> M W B) :
  holds_nothing m -> (forall a, holds_nothing (k a)) ->
  holds_nothing (bind m k).
Proof.
  intros Hm Hk w. unfold bind. specialize (Hm w).
  destruct (m w) as [[[e|a] tr] w1]; cbn [trace fst snd] in Hm |- *.
  - exact Hm.
  - specialize (Hk a w1). destruct (k a w1) as [[r tr'] w2].
    cbn [trace fst snd] in Hk |- *. rewrite lifecycle_app, Hm, Hk. reflexivity.
Qed.

Lemma holds_nothing_try_except {A} (body : M W A)
    (classes : M W (exn_class -> bool)) (handler : exn -> M W A) :
  holds_nothing body -> holds_nothing classes ->
  (forall e, holds_nothing (handler e)) ->
  holds_nothing (try_except body classes handler).
Proof.
  intros Hb Hc Hh w. unfold try_except. specialize (Hb w).
  destruct (body w) as [[[e|a] tr] w1]; cbn [trace fst snd] in Hb |- *;
    [|exact Hb].
  specialize (Hc w1).
  destruct (classes w1) as [[[e'|caught] tr2] w2];
    cbn [trace fst snd] in Hc |- *.
  - rewrite lifecycle_app, Hb, Hc. reflexivity.
  - destruct (caught (cls e)).
    + specialize (Hh e w2). destruct (handler e w2) as [[r tr3] w3].
      cbn [trace fst snd] in Hh |- *.
      rewrite !lifecycle_app, Hb, Hc, Hh. reflexivity.
    + cbn [trace fst snd]. rewrite lifecycle_app, Hb, Hc. reflexivity.
Qed.

Lemma holds_nothing_for_each {A} (l : list A) (f : A -> M W unit) :
  (forall a, holds_nothing (f a)) -> holds_nothing (for_each l f).
Proof.
  intro Hf. induction l as [|x l IH]; simpl.
  - apply holds_nothing_ret.
  - apply holds_nothing_bind; [apply Hf|intros _; exact IH].
Qed.
End HoldsNothing.

Create HintDb calm.
#[local] Hint Resolve holds_nothing_ret holds_nothing_raise holds_nothing_lift
  : calm.

Ltac calm :=
  repeat first
    [ solve [auto with calm nocore]
    | apply holds_nothing_ret | apply holds_nothing_raise
    | apply holds_nothing_lift
    | apply holds_nothing_emit; reflexivity
    | apply holds_nothing_external; reflexivity
    | apply holds_nothing_bind; [|intro]
    | apply holds_nothing_try_except; [| |intro]
    | apply holds_nothing_for_each; intro
    | progress unfold print, sleep, any_Exception, only, call_tool, text_of ].

Section Calm.
Context {W : Type} (H : Host W).

Lemma print_tool_list_calm (tool_map : dict tool) :
  holds_nothing (@print_tool_list W tool_map).
Proof.
  unfold print_tool_list. calm. destruct (dict_get _ _); calm.
Qed.
#[local] Hint Resolve print_tool_list_calm : calm.

Lemma render_response_calm (r : call_tool_result) :
  holds_nothing (render_response H r).
Proof.
  unfold render_response. calm.
  destruct (truthy _); calm. destruct (content r) as [|[t|] rest]; calm.
Qed.
#[local] Hint Resolve render_response_calm : calm.

Lemma handle_line_calm (tool_map : dict tool) (raw : string) :
  holds_nothing (handle_line H tool_map raw).
Proof.
  unfold handle_line.
  destruct (strip raw =? ""); [calm|].
  destruct (lower (strip raw) =? "exit"); [calm|].
  destruct (lower (strip raw) =? "help"); [calm|].
  destruct (startswith "help " (lower (strip raw))).
  - unfold help_tool. destruct (split_once " " (strip raw)) as [|a [|b l]]; calm.
    unfold help_lookup. destruct (dict_get b tool_map); calm.
  - unfold try_invoke, invoke_tool.
    destruct (split_once ", " (strip raw)) as [|p0 [|p1 [|x l]]]; calm.
    match goal with a : option pyval |- _ => destruct a as [arguments|] end;
      calm.
    destruct (negb (is_dict arguments)); calm.
    destruct (negb (dict_mem _ _)); calm.
Qed.
#[local] Hint Resolve handle_line_calm : calm.

Lemma command_loop_calm (tool_map : dict tool) (inputs : list prompt_result) :
  holds_nothing (command_loop H tool_map inputs).
Proof.
  induction inputs as [|[raw| |] rest IH]; simpl; calm.
  match goal with c : loop_ctl |- _ => destruct c end; [exact IH|calm].
Qed.
#[local] Hint Resolve command_loop_calm : calm.

Lemma print_banner_calm : holds_nothing (@print_banner W).
Proof. unfold print_banner. calm. Qed.
#[local] Hint Resolve print_banner_calm : calm.

Lemma run_interactive_session_calm (inputs : list prompt_result) :
  holds_nothing (run_interactive_session H inputs).
Proof.
  unfold run_interactive_session, get_tools. calm.
Qed.
#[local] Hint Resolve run_interactive_session_calm : calm.

Lemma poll_once_calm (retries max_retries : nat) :
  holds_nothing (poll_once H retries max_retries).
Proof.
  unfold poll_once, check_plugin_status. calm.
  - destruct (content _) as [|[t|] rest]; calm.
  - destruct (negb _); calm.
    + destruct (truthy _); calm. unfold get_connected.
      match goal with v : pyval |- _ => destruct v end; calm.
    + match goal with b : bool |- _ => destruct b end; calm.
Qed.
#[local] Hint Resolve poll_once_calm : calm.

Lemma wait_for_plugin_calm (max_retries remaining : nat) :
  holds_nothing (wait_for_plugin H max_retries remaining).
Proof.
  induction remaining as [|k IH]; simpl; calm.
  match goal with b : bool |- _ => destruct b end; [calm|exact IH].
Qed.
#[local] Hint Resolve wait_for_plugin_calm : calm.

Lemma client_session_calm (max_retries : nat) (inputs : list prompt_result) :
  holds_nothing (client_session H max_retries inputs).
Proof.
  unfold client_session, catalog_and_loop. calm.
  destruct (negb _); calm.
Qed.
#[local] Hint Resolve client_session_calm : calm.
End Calm.

#[local] Hint Resolve print_tool_list_calm render_response_calm handle_line_calm command_loop_calm print_banner_calm run_interactive_session_calm poll_once_calm wait_for_plugin_calm client_session_calm : calm.

Section Steps.
Context {W : Type}.

(** Running past a step that returned and held nothing. *)
Lemma lifecycle_bind_ok {A B} (m : M W A) (k : A -> M W B) (w : W) (a : A)
    (tr : list event) (w1 : W) :
  m w = (inr a, tr, w1) -> lifecycle tr = [] ->
  lifecycle (trace (bind m k w)) = lifecycle (trace (k a w1))
  /\ outcome (bind m k w) = outcome (k a w1)
  /\ world (bind m k w) = world (k a w1).
Proof.
  intros Hm Htr. unfold bind. rewrite Hm.
  destruct (k a w1) as [[r tr'] w2]. cbn [trace outcome world fst snd].
  rewrite lifecycle_app, Htr. repeat split; reflexivity.
Qed.

Lemma lifecycle_try_finally {A} (body : M W A) (ev : event)
    (f : W -> (exn + unit) * W) (w : W) :
  lifecycle (trace (try_finally body (external ev f) w))
  = lifecycle (trace (body w)) ++ lifecycle [ev].
Proof.
  unfold try_finally, external.
  destruct (body w) as [[r tr] w1]. destruct (f w1) as [[e|[]] w2];
    cbn [trace fst snd]; apply lifecycle_app.
Qed.

Lemma try_except_print_returns (body : M W unit) (line : exn -> string)
    (w : W) :
  outcome (try_except body any_Exception (fun e => print (line e)) w) = inr tt.
Proof.
  unfold try_except, any_Exception, ret, print, emit.
  destruct (body w) as [[[e|[]] tr] w1]; reflexivity.
Qed.

Lemma lifecycle_try_except_print (body : M W unit) (line : exn -> string)
    (w : W) :
  lifecycle (trace (try_except body any_Exception
                      (fun e => print (line e)) w))
  = lifecycle (trace (body w)).
Proof.
  unfold try_except, any_Exception, ret, print, emit.
  destruct (body w) as [[[e|[]] tr] w1]; cbn [trace fst snd];
    [|reflexivity].
  rewrite !lifecycle_app. cbn. rewrite app_nil_r. reflexivity.
Qed.

(** [async with] around a body that holds nothing: the exit runs exactly
    when the enter returned. *)
Lemma lifecycle_async_with {S A} (enter : M W S) (aexit : S -> M W unit)
    (body : S -> M W A) (w : W) :
  (forall s, holds_nothing (body s)) ->
  lifecycle (trace (async_with enter aexit body w))
  = match enter w with
    | (inl _, tr, _) => lifecycle tr
    | (inr s, tr, w1) =>
        lifecycle tr ++ lifecycle (trace (aexit s (world (body s w1))))
    end.
Proof.
  intro Hb. unfold async_with, bind, try_finally.
  destruct (enter w) as [[[e|s] tr] w1]; [reflexivity|].
  specialize (Hb s w1). destruct (body s w1) as [[r tr2] w2].
  cbn [trace world fst snd] in Hb |- *.
  destruct (aexit s w2) as [[[e|[]] tr3] w3]; cbn [trace fst snd];
    rewrite !lifecycle_app, Hb; reflexivity.
Qed.
End Steps.

Section Mains.
Context {W : Type} (H : Host W).

Lemma lift_value_bind {A B} (a : A) (k : A -> M W B) (w : W) :
  (x <- lift (inr a) ;; k x) w = k a w.
Proof.
  unfold bind, lift. destruct (k a w) as [[r tr] w1]. reflexivity.
Qed.

Lemma MCPClient_main_lifecycle (inputs : list prompt_result) (w : W) :
  match new_StdioTransport H with
  | inl e => MCPClient_main H inputs w = (inl e, [], w)
  | inr t =>
      outcome (MCPClient_main H inputs w) = inr tt
      /\ lifecycle (trace (MCPClient_main H inputs w))
         = match fst (client_enter H t w) with
           | inr _ => [ClientEnter t; ClientExit]
           | inl _ => [ClientEnter t]
           end
  end.
Proof.
  unfold MCPClient_main.
  destruct (new_StdioTransport H) as [e|t]; [reflexivity|].
  rewrite lift_value_bind.
  split; [apply try_except_print_returns|].
  rewrite lifecycle_try_except_print.
  rewrite lifecycle_async_with
    by (intro s; calm).
  unfold MCPClient_aenter, MCPClient_init.
  cbn [self_transport client server_pid command_name script_path init_delay
       truthy_str andb].
  run.
  destruct (client_enter H t w) as [[e|[]] w1];
    cbn [fst snd]; [reflexivity|].
  unfold MCPClient_aexit.
  cbn [self_transport client server_pid command_name script_path init_delay].
  run. destruct (client_exit H _) as [[e|[]] w2]; reflexivity.
Qed.
End Mains.

Section Mains2.
Context {W : Type} (H : Host W).

Lemma lifecycle_cons_calm (ev : event) (tr : list event) :
  is_lifecycle ev = false -> lifecycle (ev :: tr) = lifecycle tr.
Proof. intro Hev. unfold lifecycle. simpl. rewrite Hev. reflexivity. Qed.

Lemma client_main_lifecycle (inputs : list prompt_result) (w : W)
    (node_path : string) :
  shutil_which H "node" w = Some node_path -> node_path <> "" ->
  let t := StdioTransport (Some node_path) ["dist/index.js"]
             (Some (project_root H w)) in
  lifecycle (trace (client_main H inputs w))
  = match fst (client_enter H t w) with
    | inr _ => [ClientEnter t; ClientExit; TransportTerminate]
    | inl _ => [ClientEnter t; TransportTerminate]
    end
  /\ match client_enter H t w with
     | (inl e, w1) =>
         outcome (client_main H inputs w)
         = match fst (transport_terminate H w1) with
           | inl e' => inl e'
           | inr _ => inl e
           end
     | (inr _, _) => True
     end.
Proof.
  intros Hn Hp t. unfold client_main, async_with. run. rewrite Hn.
  destruct (String.eqb_spec node_path "") as [E|_]; [contradiction|].
  run. fold t.
  destruct (client_enter H t w) as [[e|[]] w1]; cbn [fst snd].
  - destruct (transport_terminate H w1) as [[e'|[]] w2]; split; reflexivity.
  - split; [|exact I].
    pose proof (client_session_calm H 30 inputs w1) as Hc.
    destruct (client_session H 30 inputs w1) as [[r tr] w2].
    cbn [trace fst snd] in Hc.
    destruct (client_exit H w2) as [[e'|[]] w3];
      destruct (transport_terminate H w3) as [[e''|[]] w4];
      cbn [trace fst snd app];
      rewrite !lifecycle_cons_calm by reflexivity;
      unfold lifecycle; cbn [filter is_lifecycle];
      rewrite !filter_app; fold (lifecycle tr); rewrite Hc; reflexivity.
Qed.

Lemma client_main_without_node (inputs : list prompt_result) (w : W) :
  shutil_which H "node" w = None \/ shutil_which H "node" w = Some "" ->
  client_main H inputs w
  = (inl node_missing, [Print (cat ["Project root: "; project_root H w])], w).
Proof.
  intros [Hn|Hn]; unfold client_main; run; rewrite Hn; reflexivity.
Qed.

Lemma figma_client_main_without_node (inputs : list prompt_result) (w : W) :
  shutil_which H "node" w = None \/ shutil_which H "node" w = Some "" ->
  figma_client_main H inputs w = (inl node_missing, [], w).
Proof.
  intros [Hn|Hn]; unfold figma_client_main, get_figma_server_command; run;
    rewrite Hn; reflexivity.
Qed.

Lemma figma_client_main_returns (inputs : list prompt_result) (w : W)
    (node_path : string) :
  shutil_which H "node" w = Some node_path -> node_path <> "" ->
  outcome (figma_client_main H inputs w) = inr tt.
Proof.
  intros Hn Hp. unfold figma_client_main, get_figma_server_command.
  unfold bind at 1. rewrite Hn.
  destruct (String.eqb_spec node_path "") as [E|_]; [contradiction|].
  unfold ret at 1.
  unfold bind at 1, print at 1, emit at 1.
  unfold bind at 1, print at 1, emit at 1.
  match goal with
  | |- context [try_except ?b any_Exception ?h w] =>
      pose proof (try_except_print_returns b (fun e => cat ["Error: "; msg e]) w)
        as Ht;
      destruct (try_except b any_Exception h w) as [[r tr] w1]
  end.
  cbn [outcome fst snd] in Ht |- *. exact Ht.
Qed.
End Mains2.

(* ------------------------------------------------------------------ *)
(** ** The tool list and the catalog *)

Section Sorting.

Lemma insert_sorted_perm (x : string) (l : list string) :
  Permutation (x :: l) (insert_sorted x l).
Proof.
  induction l as [|y l IH]; simpl; [reflexivity|].
  destruct (String.leb x y); [reflexivity|].
  rewrite perm_swap. apply perm_skip. exact IH.
Qed.

Lemma sorted_perm (l : list string) : Permutation l (sorted l).
Proof.
  induction l as [|x l IH]; simpl; [constructor|].
  rewrite <- insert_sorted_perm. apply perm_skip. exact IH.
Qed.

Lemma insert_sorted_hd (x a : string) (l : list string) :
  str_le a x -> HdRel str_le a l -> HdRel str_le a (insert_sorted x l).
Proof.
  intros Hax Hl. destruct l as [|y l]; simpl.
  - constructor. exact Hax.
  - destruct (String.leb x y); constructor;
      [exact Hax|inversion Hl; assumption].
Qed.

Lemma insert_sorted_sorted (x : string) (l : list string) :
  Sorted str_le l -> Sorted str_le (insert_sorted x l).
Proof.
  induction l as [|y l IH]; intro Hs; simpl.
  - repeat constructor.
  - inversion Hs as [|? ? Hl Hy]; subst.
    destruct (String.leb x y) eqn:Hxy.
    + constructor; [exact Hs|constructor; exact Hxy].
    + constructor; [apply IH; exact Hl|].
      apply insert_sorted_hd; [|exact Hy].
      destruct (String.leb_total x y) as [Hc|Hc]; [congruence|exact Hc].
Qed.

Lemma sorted_sorted (l : list string) : Sorted str_le (sorted l).
Proof.
  induction l as [|x l IH]; simpl; [constructor|].
  apply insert_sorted_sorted. exact IH.
Qed.
End Sorting.

Section DictFacts.
Context {V : Type}.

Lemma dict_get_in_keys (k : string) (d : dict V) :
  In k (dict_keys d) -> exists v, dict_get k d = Some v.
Proof.
  induction d as [|[k' v'] d IH]; simpl; [contradiction|].
  intros [->|Hin].
  - rewrite String.eqb_refl. eauto.
  - destruct (k' =? k); eauto.
Qed.

Lemma dict_get_set_same (k : string) (v : V) (d : dict V) :
  dict_get k (dict_set k v d) = Some v.
Proof.
  induction d as [|[k' v'] d IH]; simpl.
  - rewrite String.eqb_refl. reflexivity.
  - destruct (k' =? k) eqn:E; simpl; rewrite ?E, ?String.eqb_refl;
      [reflexivity|exact IH].
Qed.

Lemma dict_get_set_other (k k' : string) (v : V) (d : dict V) :
  k <> k' -> dict_get k' (dict_set k v d) = dict_get k' d.
Proof.
  intro Hne. induction d as [|[k0 v0] d IH]; simpl.
  - destruct (String.eqb_spec k k'); [contradiction|reflexivity].
  - destruct (String.eqb_spec k0 k) as [->|Hk]; simpl.
    + destruct (String.eqb_spec k k'); [contradiction|reflexivity].
    + destruct (k0 =? k'); [reflexivity|exact IH].
Qed.

Lemma dict_set_keys (k : string) (v : V) (d : dict V) :
  dict_keys (dict_set k v d)
  = if dict_mem k d then dict_keys d else dict_keys d ++ [k].
Proof.
  unfold dict_mem. induction d as [|[k0 v0] d IH]; simpl; [reflexivity|].
  destruct (String.eqb_spec k0 k) as [->|Hk]; simpl; [reflexivity|].
  rewrite IH. destruct (dict_get k d); reflexivity.
Qed.

Lemma dict_mem_in_keys (k : string) (d : dict V) :
  dict_mem k d = true <-> In k (dict_keys d).
Proof.
  unfold dict_mem. induction d as [|[k0 v0] d IH]; simpl.
  - split; [discriminate|contradiction].
  - destruct (String.eqb_spec k0 k) as [->|Hk].
    + split; auto.
    + rewrite IH. split; [auto|intros [E|Hin]; [contradiction|exact Hin]].
Qed.

Lemma dict_set_nodup (k : string) (v : V) (d : dict V) :
  NoDup (dict_keys d) -> NoDup (dict_keys (dict_set k v d)).
Proof.
  intro Hd. rewrite dict_set_keys.
  destruct (dict_mem k d) eqn:Hm; [exact Hd|].
  apply NoDup_app; [exact Hd|repeat constructor; intros []|].
  intros x Hx [<-|[]]. apply dict_mem_in_keys in Hx. congruence.
Qed.
End DictFacts.

Section Catalog.

Lemma find_app {A} (p : A -> bool) (l1 l2 : list A) :
  find p (l1 ++ l2)
  = match find p l1 with Some x => Some x | None => find p l2 end.
Proof.
  induction l1 as [|x l1 IH]; simpl; [reflexivity|].
  destruct (p x); [reflexivity|exact IH].
Qed.

Lemma fold_catalog_get (tools : list tool) (acc : dict tool) (n : string) :
  dict_get n (fold_left (fun d t => dict_set (name t) t d) tools acc)
  = match find (fun t => name t =? n) (rev tools) with
    | Some t => Some t
    | None => dict_get n acc
    end.
Proof.
  revert acc. induction tools as [|t tools IH]; intro acc; simpl.
  - reflexivity.
  - rewrite IH, find_app. destruct (find _ (rev tools)); [reflexivity|].
    simpl. destruct (String.eqb_spec (name t) n) as [<-|Hn].
    + apply dict_get_set_same.
    + apply dict_get_set_other. exact Hn.
Qed.

Lemma fold_catalog_nodup (tools : list tool) (acc : dict tool) :
  NoDup (dict_keys acc) ->
  NoDup (dict_keys (fold_left (fun d t => dict_set (name t) t d) tools acc)).
Proof.
  revert acc. induction tools as [|t tools IH]; intros acc Ha; simpl.
  - exact Ha.
  - apply IH. apply dict_set_nodup. exact Ha.
Qed.

Lemma find_name_some (tools : list tool) (n : string) :
  (exists t, find (fun t => name t =? n) tools = Some t)
  <-> In n (map name tools).
Proof.
  induction tools as [|t tools IH]; simpl.
  - split; [intros [t Ht]; discriminate|contradiction].
  - destruct (String.eqb_spec (name t) n) as [<-|Hn].
    + split; eauto.
    + rewrite IH. split; [auto|intros [E|Hin]; [contradiction|exact Hin]].
Qed.
End Catalog.

(** X2.  The catalog built from a tool listing has no duplicate key, holds
    exactly the listed names, and maps a name to the last tool listed under
    it. *)
Theorem catalog_lookup_is_last_listed {W : Type} (H : Host W) (w : W)
    (tools : list tool) (w1 : W) :
  client_list_tools H w = (inr tools, w1) ->
  get_tools H w = (inr (tool_map_of tools), [ListTools], w1)
  /\ NoDup (dict_keys (tool_map_of tools))
  /\ (forall n, dict_get n (tool_map_of tools)
                = find (fun t => name t =? n) (rev tools))
  /\ (forall n, dict_mem n (tool_map_of tools) = true
                <-> In n (map name tools)).
Proof.
  intro Hl. split; [|split; [|split]].
  - unfold get_tools. run. rewrite Hl. reflexivity.
  - apply fold_catalog_nodup. constructor.
  - intro n. unfold tool_map_of. rewrite fold_catalog_get.
    destruct (find _ (rev tools)); reflexivity.
  - intro n. unfold dict_mem, tool_map_of. rewrite fold_catalog_get.
    rewrite (in_rev (map name tools)), <- map_rev, <- find_name_some.
    destruct (find _ (rev tools)) as [t|]; simpl.
    + split; eauto.
    + split; [discriminate|intros [t Ht]; discriminate].
Qed.

Lemma catalog_lookup_is_last_listed_witness :
  client_list_tools sim_host sim_launched
  = (inr (sim_tools sim_launched), sim_launched)
  /\ get_tools sim_host sim_launched
     = (inr (tool_map_of (sim_tools sim_launched)), [ListTools], sim_launched)
  /\ NoDup (dict_keys (tool_map_of (sim_tools sim_launched)))
  /\ (forall n, dict_get n (tool_map_of (sim_tools sim_launched))
                = find (fun t => name t =? n) (rev (sim_tools sim_launched)))
  /\ (forall n, dict_mem n (tool_map_of (sim_tools sim_launched)) = true
                <-> In n (map name (sim_tools sim_launched))).
Proof.
  split; [reflexivity|].
  exact (catalog_lookup_is_last_listed sim_host sim_launched
           (sim_tools sim_launched) sim_launched eq_refl).
Defined.

(** A listing that names a tool twice: the later entry is the one kept, at
    the position of the first. *)
Example catalog_keeps_the_last_duplicate :
  tool_map_of [Tool "add" (Some "old") PNone; Tool "sub" None PNone;
               Tool "add" (Some "new") PNone]
  = [("add", Tool "add" (Some "new") PNone); ("sub", Tool "sub" None PNone)].
Proof. reflexivity. Qed.

(* ------------------------------------------------------------------ *)
(** ** The command loop as a whole *)

Section LoopWhole.
Context {W : Type} (H : Host W).

Lemma try_invoke_returns (tool_map : dict tool) (line : string) (w : W) :
  exists ctl, outcome (try_invoke H tool_map line w) = inr ctl.
Proof.
  unfold try_invoke, try_except, any_Exception, ret.
  destruct (invoke_tool H tool_map line w) as [[[e|c] tr] w1]; run;
    eexists; reflexivity.
Qed.

(** What one pass through the invocation branch sends to the server. *)
Lemma try_invoke_calls (tool_map : dict tool) (line : string) (w : W) :
  rpc_calls (trace (try_invoke H tool_map line w)) = []
  \/ exists p0 d,
       dict_mem p0 tool_map = true
       /\ rpc_calls (trace (try_invoke H tool_map line w)) = [(p0, PDict d)].
Proof.
  destruct (partition_first ", " line) as [[p0 p1]|] eqn:Hp.
  - assert (Hs : split_once ", " line = [p0; p1])
      by (unfold split_once; rewrite Hp; reflexivity).
    destruct (json_loads H (strip p1)) as [e|v] eqn:Hj.
    + destruct (invoke_bad_json H tool_map line p0 p1 e w Hs Hj) as [r ->].
      left. reflexivity.
    + destruct (is_dict v) eqn:Hd.
      * destruct v; try discriminate Hd.
        destruct (dict_mem (strip p0) tool_map) eqn:Hm.
        -- right. exists (strip p0), items. split; [exact Hm|].
           apply (invoke_known_tool H tool_map line p0 p1 items w Hs Hj Hm).
        -- rewrite (invoke_unknown_tool H tool_map line p0 p1 items w Hs Hj Hm).
           left. reflexivity.
      * rewrite (invoke_not_object H tool_map line p0 p1 v w Hs Hj Hd).
        left. reflexivity.
  - rewrite (invoke_no_separator H tool_map line w Hp). left. reflexivity.
Qed.

Lemma help_tool_quiet (tool_map : dict tool) (line : string) :
  quiet (help_tool H tool_map line).
Proof.
  unfold help_tool. destruct (split_once " " line) as [|a [|b l]];
    auto using help_lookup_quiet with quiet.
Qed.

Lemma handle_line_calls (tool_map : dict tool) (raw : string) (w : W) :
  rpc_calls (trace (handle_line H tool_map raw w)) = []
  \/ exists p0 d,
       dict_mem p0 tool_map = true
       /\ rpc_calls (trace (handle_line H tool_map raw w)) = [(p0, PDict d)].
Proof.
  unfold handle_line.
  destruct (strip raw =? ""); [left; reflexivity|].
  destruct (lower (strip raw) =? "exit"); [left; reflexivity|].
  destruct (lower (strip raw) =? "help").
  - left.
    apply (quiet_bind (print_tool_list tool_map) (fun _ => ret Continue));
      [apply print_tool_list_quiet|intro; apply quiet_ret].
  - destruct (startswith "help " (lower (strip raw))).
    + left. apply help_tool_quiet.
    + apply try_invoke_calls.
Qed.

Lemma print_tool_list_run (tool_map : dict tool) (w : W) :
  print_tool_list tool_map w
  = (inr tt,
     Print (cat [nl; "Available tools:"])
     :: map (fun k => Print (tool_line tool_map k))
            (sorted (dict_keys tool_map)),
     w).
Proof.
  unfold print_tool_list.
  assert (Hk : forall k, In k (sorted (dict_keys tool_map)) ->
                         exists v, dict_get k tool_map = Some v).
  { intros k Hin. apply dict_get_in_keys.
    apply (Permutation_in k (Permutation_sym (sorted_perm _))). exact Hin. }
  revert Hk. generalize (sorted (dict_keys tool_map)) as keys.
  intros keys Hk.
  assert (Hloop :
    for_each keys (fun tool_name =>
      match dict_get tool_name tool_map with
      | Some tool_info =>
          print (cat ["  - "; name tool_info; ": ";
                      str_opt (description tool_info)])
      | None => raise (Exn KeyError tool_name)
      end) w
    = (inr tt, map (fun k => Print (tool_line tool_map k)) keys, w)).
  { induction keys as [|k keys IH]; [reflexivity|].
    simpl for_each. simpl map. unfold bind.
    destruct (Hk k (or_introl eq_refl)) as [v Hv].
    unfold tool_line at 1. rewrite Hv.
    unfold print at 1, emit at 1.
    rewrite IH by (intros; apply Hk; right; assumption).
    reflexivity. }
  unfold bind, print at 1, emit. rewrite Hloop. reflexivity.
Qed.

Lemma handle_line_returns (tool_map : dict tool) (raw : string) (w : W) :
  (forall k tool_info, dict_get k tool_map = Some tool_info ->
     exists s, yaml_dump H (inputSchema tool_info) = inr s) ->
  exists ctl, outcome (handle_line H tool_map raw w) = inr ctl.
Proof.
  intro Hdump. unfold handle_line.
  destruct (strip raw =? ""); [eexists; reflexivity|].
  destruct (lower (strip raw) =? "exit"); [eexists; reflexivity|].
  destruct (lower (strip raw) =? "help").
  - unfold bind. rewrite print_tool_list_run. eexists; reflexivity.
  - destruct (startswith "help " (lower (strip raw))) eqn:Hp.
    + destruct (help_line_split _ Hp) as (Hs & _).
      unfold help_tool. rewrite Hs. unfold help_lookup.
      destruct (dict_get _ tool_map) as [tool_info|] eqn:Hg;
        [|eexists; reflexivity].
      destruct (Hdump _ _ Hg) as [s Hy]. run. rewrite Hy.
      eexists; reflexivity.
    + apply try_invoke_returns.
Qed.
End LoopWhole.

(** X3.  Whatever is typed, every request the command loop sends to the
    server names a tool of the catalog and carries a dict. *)
Theorem loop_calls_only_catalog_tools {W : Type} (H : Host W)
    (tool_map : dict tool) (inputs : list prompt_result) (w : W) :
  Forall (fun c => dict_mem (fst c) tool_map = true /\ is_dict (snd c) = true)
         (rpc_calls (trace (command_loop H tool_map inputs w))).
Proof.
  assert (Hbind : forall (A B : Type) (m : M W A) (k : A -> M W B) w0,
            Forall (fun c => dict_mem (fst c) tool_map = true
                             /\ is_dict (snd c) = true)
                   (rpc_calls (trace (m w0))) ->
            (forall a w', Forall (fun c => dict_mem (fst c) tool_map = true
                                           /\ is_dict (snd c) = true)
                                 (rpc_calls (trace (k a w')))) ->
            Forall (fun c => dict_mem (fst c) tool_map = true
                             /\ is_dict (snd c) = true)
                   (rpc_calls (trace (bind m k w0)))).
  { intros A B m k w0 Hm Hk. unfold bind.
    destruct (m w0) as [[[e|a] tr] w1]; cbn [trace fst snd] in Hm |- *;
      [exact Hm|].
    specialize (Hk a w1). destruct (k a w1) as [[r tr'] w2].
    cbn [trace fst snd] in Hk |- *. rewrite rpc_calls_app.
    apply Forall_app. split; assumption. }
  revert w. induction inputs as [|[raw| |] rest IH]; intro w;
    try (constructor; fail).
  simpl command_loop. apply Hbind; [constructor|]. intros _ w'.
  apply Hbind.
  - destruct (handle_line_calls H tool_map raw w') as [->|(p0 & d & Hm & ->)];
      repeat constructor; assumption.
  - intros [] w''; [apply IH|constructor].
Qed.

(** X4.  When the schema of every tool of the catalog can be dumped, the
    command loop ends without raising for every sequence of inputs: no
    input line and no failing call makes it raise. *)
Theorem loop_survives_every_input {W : Type} (H : Host W)
    (tool_map : dict tool) (inputs : list prompt_result) (w : W) :
  (forall k tool_info, dict_get k tool_map = Some tool_info ->
     exists s, yaml_dump H (inputSchema tool_info) = inr s) ->
  outcome (command_loop H tool_map inputs w) = inr tt.
Proof.
  intro Hdump. revert w.
  induction inputs as [|[raw| |] rest IH]; intro w; try reflexivity.
  simpl command_loop. unfold bind at 1, emit at 1. unfold bind at 1.
  destruct (handle_line_returns H tool_map raw w Hdump) as [ctl Hc].
  destruct (handle_line H tool_map raw w) as [[[e|c] tr] w1];
    cbn [outcome fst snd] in Hc; [discriminate Hc|].
  destruct c; [|reflexivity].
  specialize (IH w1).
  destruct (command_loop H tool_map rest w1) as [[r tr'] w2].
  exact IH.
Qed.

Lemma loop_survives_every_input_witness :
  (forall k tool_info, dict_get k sim_tool_map = Some tool_info ->
     exists s, yaml_dump sim_host (inputSchema tool_info) = inr s)
  /\ outcome (command_loop sim_host sim_tool_map
                [PromptLine "fail, {}"; PromptLine "add, {oops";
                 PromptLine "help nope"; PromptLine "help add";
                 PromptLine "nonsense"; PromptInterrupt]
                sim_launched) = inr tt.
Proof.
  assert (Hd : forall k tool_info, dict_get k sim_tool_map = Some tool_info ->
                 exists s, yaml_dump sim_host (inputSchema tool_info) = inr s)
    by (intros k tool_info _; eexists; reflexivity).
  split; [exact Hd|].
  exact (loop_survives_every_input sim_host sim_tool_map _ sim_launched Hd).
Defined.

(** X1.  The tool list is the heading followed by one line per key of the
    tool map, in ascending order of the names, each key once; printing it
    never raises and reaches neither the server nor the world. *)
Theorem tool_list_prints_sorted_names {W : Type} (tool_map : dict tool)
    (w : W) :
  print_tool_list tool_map w
  = (inr tt,
     Print (cat [nl; "Available tools:"])
     :: map (fun k => Print (tool_line tool_map k))
            (sorted (dict_keys tool_map)),
     w)
  /\ Sorted str_le (sorted (dict_keys tool_map))
  /\ Permutation (dict_keys tool_map) (sorted (dict_keys tool_map)).
Proof.
  split; [apply print_tool_list_run|].
  split; [apply sorted_sorted|apply sorted_perm].
Qed.

(* ------------------------------------------------------------------ *)
(** ** Lines, separators and blanks *)

Lemma lstrip_blank (s : string) :
  Forall (fun c => is_space c = true) (list_ascii_of_string s) ->
  lstrip s = "".
Proof.
  induction s as [|c s IH]; intro Hs; [reflexivity|].
  simpl in Hs |- *. inversion Hs as [|? ? Hc Hrest]; subst.
  rewrite Hc. apply IH. exact Hrest.
Qed.

(** X5.  A line made of whitespace only is a no-op: nothing is printed,
    nothing is called, and the loop prompts again. *)
Theorem blank_line_is_ignored {W : Type} (H : Host W) (tool_map : dict tool)
    (raw : string) (w : W) :
  Forall (fun c => is_space c = true) (list_ascii_of_string raw) ->
  handle_line H tool_map raw w = (inr Continue, [], w).
Proof.
  intro Hs. unfold handle_line, strip. rewrite (lstrip_blank raw Hs).
  reflexivity.
Qed.

(** A line of a tab and two spaces. *)
Lemma blank_line_is_ignored_witness :
  Forall (fun c => is_space c = true)
         (list_ascii_of_string (String (ascii_of_nat 9) "  "))
  /\ handle_line sim_host sim_tool_map (String (ascii_of_nat 9) "  ")
       sim_launched
     = (inr Continue, [], sim_launched).
Proof.
  assert (Hs : Forall (fun c => is_space c = true)
                 (list_ascii_of_string (String (ascii_of_nat 9) "  ")))
    by (repeat constructor).
  split; [exact Hs|].
  exact (blank_line_is_ignored sim_host sim_tool_map _ sim_launched Hs).
Defined.

(** A name without the separator, the separator and any text: the split is
    at that separator, however many more the text holds. *)
Lemma partition_first_append (tool rest : string) :
  partition_first ", " tool = None ->
  partition_first ", " (tool ++ ", " ++ rest) = Some (tool, rest).
Proof.
  assert (Htail : partition_first ", " (", " ++ rest) = Some ("", rest))
    by reflexivity.
  assert (Hsp : startswith " " (", " ++ rest) = false) by reflexivity.
  revert Htail Hsp. generalize (", " ++ rest)%string as tail.
  intros tail Htail Hsp.
  induction tool as [|c t IH]; intro Hn.
  - exact Htail.
  - rewrite partition_first_eq in Hn.
    destruct (startswith ", " (String c t)) eqn:Hp; [discriminate Hn|].
    destruct (partition_first ", " t) as [[l r]|] eqn:Ht; [discriminate Hn|].
    change (String c t ++ tail)%string with (String c (t ++ tail)).
    rewrite partition_first_eq.
    assert (Hq : startswith ", " (String c (t ++ tail)) = false).
    { rewrite startswith_cons in Hp |- *.
      destruct (Ascii.eqb "," c); [|reflexivity].
      cbn [andb] in Hp |- *.
      destruct t as [|c' t']; [exact Hsp|].
      change (String c' t' ++ tail)%string with (String c' (t' ++ tail)).
      rewrite startswith_cons in Hp |- *.
      destruct (Ascii.eqb " " c'); [discriminate Hp|reflexivity]. }
    rewrite Hq, (IH eq_refl). reflexivity.
Qed.

(** X6.  Only the first [", "] of a line separates: for a line made of a
    tool name without the separator, the separator and an argument text,
    the split gives that name and the whole text, later separators
    included.  When the text decodes to a dict and the trimmed name is in
    the catalog, the line makes exactly one call, with that name and that
    dict, unless its stripped lowercased form begins with ["help "]: then
    it is a help request and makes no call. *)
Theorem later_separators_stay_in_arguments {W : Type} (H : Host W)
    (tool_map : dict tool) (raw tool_name arguments_str : string)
    (d : list (pyval * pyval)) (w : W) :
  strip raw = (tool_name ++ ", " ++ arguments_str)%string ->
  partition_first ", " tool_name = None ->
  json_loads H (strip arguments_str) = inr (PDict d) ->
  dict_mem (strip tool_name) tool_map = true ->
  split_once ", " (strip raw) = [tool_name; arguments_str]
  /\ rpc_calls (trace (handle_line H tool_map raw w))
     = if startswith "help " (lower (strip raw)) then []
       else [(strip tool_name, PDict d)].
Proof.
  intros Hr Hn Hj Hm.
  assert (Hs : split_once ", " (strip raw) = [tool_name; arguments_str]).
  { unfold split_once. rewrite Hr, (partition_first_append _ _ Hn).
    reflexivity. }
  split; [exact Hs|].
  destruct (startswith "help " (lower (strip raw))) eqn:Hh.
  - rewrite (handle_help_line H tool_map raw w Hh).
    apply (help_lookup_quiet H tool_map (drop 5 (strip raw)) w).
  - assert (Hsep : partition_first ", " (strip raw) <> None)
      by (rewrite (split_once_two _ _ _ _ Hs); discriminate).
    destruct (separator_excludes_keywords _ Hsep) as (H1 & H2 & H3).
    rewrite (handle_invocation_line H tool_map raw w H1 H2 H3 Hh).
    apply (invoke_known_tool H tool_map (strip raw) tool_name arguments_str
             d w Hs Hj Hm).
Qed.

Lemma later_separators_stay_in_arguments_witness :
  strip (cat ["add, "; two_arguments])
  = ("add" ++ ", " ++ two_arguments)%string
  /\ partition_first ", " "add" = None
  /\ json_loads sim_host_args (strip two_arguments)
     = inr (PDict [(PStr "a", PInt 1); (PStr "b", PInt 2)])
  /\ dict_mem (strip "add") sim_tool_map = true
  /\ split_once ", " (strip (cat ["add, "; two_arguments]))
     = ["add"; two_arguments]
  /\ rpc_calls (trace (handle_line sim_host_args sim_tool_map
                         (cat ["add, "; two_arguments]) sim_launched))
     = [(strip "add", PDict [(PStr "a", PInt 1); (PStr "b", PInt 2)])].
Proof.
  do 4 (split; [reflexivity|]).
  exact (later_separators_stay_in_arguments sim_host_args sim_tool_map
           (cat ["add, "; two_arguments]) "add" two_arguments
           [(PStr "a", PInt 1); (PStr "b", PInt 2)] sim_launched
           eq_refl eq_refl eq_refl eq_refl).
Defined.

(** The other case: the catalog has a tool named [help me], and the line
    that names it with arguments is read as a help request. *)
Example help_prefixed_line_makes_no_call :
  dict_mem "help me" sim_tool_map = true
  /\ split_once ", " (strip "help me, {}") = ["help me"; "{}"]
  /\ startswith "help " (lower (strip "help me, {}")) = true
  /\ rpc_calls (trace (handle_line sim_host sim_tool_map "help me, {}"
                         sim_launched)) = [].
Proof. repeat split; reflexivity. Qed.

(** X7.  The help branch stands outside the inner [try]: when the schema of
    the tool asked about cannot be dumped, the exception leaves the command
    loop after the three lines printed so far, and no further input is
    read. *)
Theorem help_dump_failure_ends_the_loop {W : Type} (H : Host W)
    (tool_map : dict tool) (raw : string) (tool_info : tool) (e : exn)
    (rest : list prompt_result) (w : W) :
  startswith "help " (lower (strip raw)) = true ->
  dict_get (drop 5 (strip raw)) tool_map = Some tool_info ->
  yaml_dump H (inputSchema tool_info) = inl e ->
  command_loop H tool_map (PromptLine raw :: rest) w
  = (inl e,
     [Prompt;
      Print (cat [nl; "Tool: "; name tool_info]);
      Print (cat ["Description: "; str_opt (description tool_info)]);
      Print "Input Schema:"],
     w).
Proof.
  intros Hp Hg Hy. simpl command_loop. unfold bind at 1, emit at 1.
  unfold bind at 1. rewrite (handle_help_line H tool_map raw w Hp).
  unfold help_lookup. rewrite Hg. run. rewrite Hy. reflexivity.
Qed.

Lemma help_dump_failure_ends_the_loop_witness :
  startswith "help " (lower (strip "help odd")) = true
  /\ dict_get (drop 5 (strip "help odd")) odd_tool_map
     = Some (Tool "odd" None (PList []))
  /\ yaml_dump sim_host_strict (PList [])
     = inl (Exn RuntimeError "cannot represent an object")
  /\ command_loop sim_host_strict odd_tool_map
       [PromptLine "help odd"; PromptLine "add, {}"] sim_launched
     = (inl (Exn RuntimeError "cannot represent an object"),
        [Prompt;
         Print (cat [nl; "Tool: "; "odd"]);
         Print (cat ["Description: "; str_opt None]);
         Print "Input Schema:"],
        sim_launched).
Proof.
  do 3 (split; [reflexivity|]).
  exact (help_dump_failure_ends_the_loop sim_host_strict odd_tool_map
           "help odd" (Tool "odd" None (PList []))
           (Exn RuntimeError "cannot represent an object")
           [PromptLine "add, {}"] sim_launched eq_refl eq_refl eq_refl).
Defined.

(* ------------------------------------------------------------------ *)
(** ** The poll, when the plugin connects *)

Section PollSuccess.
Context {W : Type} (H : Host W).

Lemma wait_for_plugin_succeeds (max_retries remaining k : nat) (w : W) :
  k < remaining ->
  (forall j, j < k -> reports_connected H (nth_status_reply H j w) = false) ->
  reports_connected H (nth_status_reply H k w) = true ->
  exists tr,
    wait_for_plugin H max_retries remaining w
    = (inr true, tr, Nat.iter (S k) (after_status_call H) w)
    /\ actions tr = concat (repeat [status_call; Sleep 1] k) ++ [status_call].
Proof.
  revert remaining w. induction k as [|k IH]; intros remaining w Hk Hno Hyes.
  - destruct remaining as [|r]; [lia|]. simpl wait_for_plugin.
    pose proof (poll_once_spec H (max_retries - S r) max_retries w) as Hp.
    cbv zeta in Hp. unfold nth_status_reply in Hyes. simpl Nat.iter in Hyes.
    rewrite Hyes in Hp. unfold bind. rewrite Hp.
    eexists. split; reflexivity.
  - destruct remaining as [|r]; [lia|]. simpl wait_for_plugin.
    pose proof (poll_once_spec H (max_retries - S r) max_retries w) as Hp.
    cbv zeta in Hp.
    assert (H0 : reports_connected H
              (fst (client_call_tool H "figma_plugin_status"
                      status_arguments w)) = false)
      by (apply (Hno 0); lia).
    rewrite H0 in Hp. destruct Hp as [line Hp].
    unfold bind at 1. rewrite Hp.
    destruct (IH r (after_status_call H w)) as (tr & Hw & Ha).
    + lia.
    + intros j Hj. unfold nth_status_reply.
      rewrite <- Nat.iter_succ_r. apply (Hno (S j)). lia.
    + unfold nth_status_reply. rewrite <- Nat.iter_succ_r. exact Hyes.
    + unfold after_status_call at 1 in Hw. rewrite Hw.
      eexists. split.
      * rewrite (Nat.iter_succ_r (S k)). reflexivity.
      * simpl. rewrite Ha. reflexivity.
Qed.
End PollSuccess.

(** X8.  The poll stops at the first reply that satisfies the
    connected-predicate: when the replies 0..k-1 do not and the reply k does,
    with k below the bound, it returns [True] after exactly k+1 status calls
    and k sleeps, and the session goes on to the catalog without printing the
    warning. *)
Theorem poll_stops_at_first_success {W : Type} (H : Host W) (N k : nat)
    (inputs : list prompt_result) (w : W) :
  k < N ->
  (forall j, j < k -> reports_connected H (nth_status_reply H j w) = false) ->
  reports_connected H (nth_status_reply H k w) = true ->
  let wk := Nat.iter (S k) (after_status_call H) w in
  exists tr,
    wait_for_plugin H N N w = (inr true, tr, wk)
    /\ actions tr = concat (repeat [status_call; Sleep 1] k) ++ [status_call]
    /\ trace (client_session H N inputs w)
       = Print "Waiting for Figma plugin to connect..." :: tr
         ++ trace (catalog_and_loop H inputs wk).
Proof.
  intros Hk Hno Hyes wk.
  destruct (wait_for_plugin_succeeds H N N k w Hk Hno Hyes) as (tr & Hw & Ha).
  exists tr. split; [exact Hw|]. split; [exact Ha|].
  unfold client_session. run. rewrite Hw. subst wk. run.
  destruct (catalog_and_loop H inputs _) as [[r tr'] w']. reflexivity.
Qed.

Lemma poll_stops_at_first_success_witness :
  2 < 30
  /\ (forall j, j < 2 ->
        reports_connected late_host (nth_status_reply late_host j 2) = false)
  /\ reports_connected late_host (nth_status_reply late_host 2 2) = true
  /\ exists tr,
       wait_for_plugin late_host 30 30 2
       = (inr true, tr, Nat.iter 3 (after_status_call late_host) 2)
       /\ actions tr
          = concat (repeat [status_call; Sleep 1] 2) ++ [status_call]
       /\ trace (client_session late_host 30 [PromptLine "exit"] 2)
          = Print "Waiting for Figma plugin to connect..." :: tr
            ++ trace (catalog_and_loop late_host [PromptLine "exit"]
                        (Nat.iter 3 (after_status_call late_host) 2)).
Proof.
  assert (H0 : 2 < 30) by lia.
  assert (Hno : forall j, j < 2 ->
            reports_connected late_host (nth_status_reply late_host j 2)
            = false)
    by (intros [|[|j]] Hj; [reflexivity|reflexivity|lia]).
  split; [exact H0|]. split; [exact Hno|]. split; [reflexivity|].
  exact (poll_stops_at_first_success late_host 30 2 [PromptLine "exit"]
           2 H0 Hno eq_refl).
Defined.

(** The same poll, event by event: two replies without a connected plugin,
    each followed by the retry line and a sleep of one second, then the
    reply of a connected plugin, which is announced and ends the poll. *)
Example poll_connects_at_third_attempt :
  wait_for_plugin late_host 30 30 2
  = (inr true,
     [status_call;
      Print "Plugin not yet connected. Retrying in 1 second... (1/30)";
      Sleep 1;
      status_call;
      Print "Plugin not yet connected. Retrying in 1 second... (2/30)";
      Sleep 1;
      status_call;
      Print "Figma plugin connected!"],
     0).
Proof. reflexivity. Qed.

(* ------------------------------------------------------------------ *)
(** ** The server process *)

Section ServerProcess.
Context {W : Type} (H : Host W).

Lemma scan_processes_sound (current_pid : Z) (command_name script_path : string)
    (procs : list (exn + proc_info)) (p : Z) :
  scan_processes current_pid command_name script_path procs = inr (Some p) ->
  exists info,
    In (inr info) procs
    /\ matches_server current_pid command_name script_path info = true
    /\ pid info = p.
Proof.
  induction procs as [|[e|info] procs IH]; simpl; intro Hs.
  - discriminate Hs.
  - destruct (cls e); try discriminate Hs;
      destruct (IH Hs) as (info & Hin & Hm & Hp); eauto.
  - destruct (matches_server _ _ _ info) eqn:Hm.
    + injection Hs as <-. eauto.
    + destruct (IH Hs) as (info' & Hin & Hm' & Hp); eauto.
Qed.

Lemma scan_processes_none (current_pid : Z) (command_name script_path : string)
    (procs : list (exn + proc_info)) :
  (forall x, In x procs ->
     exists info, x = inr info
       /\ matches_server current_pid command_name script_path info = false) ->
  scan_processes current_pid command_name script_path procs = inr None.
Proof.
  induction procs as [|x procs IH]; intro Hall; [reflexivity|].
  destruct (Hall x (or_introl eq_refl)) as (info & -> & Hm).
  simpl. rewrite Hm. apply IH. intros y Hy. apply Hall. right. exact Hy.
Qed.

Lemma matches_server_inv (current_pid : Z) (command_name script_path : string)
    (info : proc_info) :
  matches_server current_pid command_name script_path info = true ->
  ppid info = Some current_pid
  /\ exists c0 c1 more,
       cmdline info = Some (c0 :: c1 :: more)
       /\ contains command_name c0 = true
       /\ contains script_path c1 = true.
Proof.
  unfold matches_server. intro Hm. apply andb_prop in Hm as [Hp Hc].
  split.
  - destruct (ppid info) as [pp|]; [|discriminate Hp].
    apply Z.eqb_eq in Hp. subst. reflexivity.
  - destruct (cmdline info) as [[|c0 [|c1 more]]|]; try discriminate Hc.
    apply andb_prop in Hc as [Hc0 Hc1]. eauto 6.
Qed.

(** What [__aenter__] leaves in the session object. *)
Lemma aenter_result (self self' : MCPClient) (w : W) :
  outcome (MCPClient_aenter H self w) = inr self' ->
  client self' = true
  /\ server_pid self'
     = (if truthy_str (command_name self) && truthy_str (script_path self)
        then match outcome (find_server_pid H (str_opt (command_name self))
                              (str_opt (script_path self))
                              (snd (client_enter H (self_transport self) w)))
             with
             | inr found => found
             | inl _ => None
             end
        else server_pid self).
Proof.
  unfold MCPClient_aenter. run.
  destruct (client_enter H (self_transport self) w) as [[e|[]] w1];
    [discriminate|]. cbn [snd].
  destruct (truthy_str (command_name self) && truthy_str (script_path self)).
  - destruct (find_server_pid H _ _ w1) as [[[e|found] tr] w2];
      [discriminate|]. cbn [outcome fst snd].
    destruct (truthy_str (command_name self)
              && negb (Qle_bool (init_delay self) 0));
      intro Ho; injection Ho as <-; split; reflexivity.
  - run.
    destruct (truthy_str (command_name self)
              && negb (Qle_bool (init_delay self) 0));
      intro Ho; injection Ho as <-; split; reflexivity.
Qed.

Lemma aexit_without_pid (self : MCPClient) (w : W) :
  client self = true -> server_pid self = None ->
  MCPClient_aexit H self w
  = (fst (client_exit H w), [ClientExit], snd (client_exit H w)).
Proof.
  intros Hc Hs. unfold MCPClient_aexit. rewrite Hc, Hs. run.
  destruct (client_exit H w) as [[e|[]] w1]; reflexivity.
Qed.
End ServerProcess.

(** X9.  A pid returned by the reverse lookup is the pid of a listed process
    that is a child of the current process and whose command line has at
    least two items, the first containing the command name and the second
    the script path. *)
Theorem found_pid_is_a_matching_child {W : Type} (H : Host W)
    (command_name script_path : string) (w : W) (p : Z) :
  outcome (find_server_pid H command_name script_path w) = inr (Some p) ->
  exists info,
    In (inr info) (psutil_process_iter H w)
    /\ pid info = p
    /\ ppid info = Some (os_getpid H w)
    /\ exists c0 c1 more,
         cmdline info = Some (c0 :: c1 :: more)
         /\ contains command_name c0 = true
         /\ contains script_path c1 = true.
Proof.
  unfold find_server_pid, import_psutil. run.
  destruct (psutil_importable H w); run; [|discriminate].
  destruct (scan_processes _ _ _ _) as [e|found] eqn:Hs; run.
  - destruct (exn_class_eqb ImportError (cls e)); discriminate.
  - intro Ho. injection Ho as ->.
    destruct (scan_processes_sound _ _ _ _ _ Hs) as (info & Hin & Hm & Hp).
    destruct (matches_server_inv _ _ _ _ Hm) as (Hpp & Hc).
    exists info. auto.
Qed.

Lemma found_pid_is_a_matching_child_witness :
  outcome (find_server_pid sim_host "node" "index.js" sim_launched)
  = inr (Some 4242%Z)
  /\ exists info,
       In (inr info) (psutil_process_iter sim_host sim_launched)
       /\ pid info = 4242%Z
       /\ ppid info = Some (os_getpid sim_host sim_launched)
       /\ exists c0 c1 more,
            cmdline info = Some (c0 :: c1 :: more)
            /\ contains "node" c0 = true
            /\ contains "index.js" c1 = true.
Proof.
  split; [reflexivity|].
  exact (found_pid_is_a_matching_child sim_host "node" "index.js"
           sim_launched 4242 eq_refl).
Defined.

(** X10.  A session given a command but no arguments never looks for its
    server: after a successful [__aenter__] it holds no pid, and leaving it
    closes the client and does nothing to any process. *)
Theorem session_without_args_never_signals {W : Type} (H : Host W)
    (t : option transport) (command : option string)
    (args : option (list string)) (cwd : option string) (d : Q) (w : W)
    (self' : MCPClient) :
  args = None \/ args = Some [] ->
  outcome (MCPClient_aenter H (MCPClient_init t command args cwd d) w)
  = inr self' ->
  server_pid self' = None
  /\ forall w2,
       MCPClient_aexit H self' w2
       = (fst (client_exit H w2), [ClientExit], snd (client_exit H w2)).
Proof.
  intros Ha Ho. destruct (aenter_result H _ _ _ Ho) as [Hc Hs].
  assert (Hn : server_pid self' = None).
  { rewrite Hs. destruct Ha as [-> | ->]; unfold MCPClient_init;
      cbn [command_name script_path server_pid truthy_str];
      rewrite andb_false_r; reflexivity. }
  split; [exact Hn|].
  intro w2. apply aexit_without_pid; assumption.
Qed.

Lemma session_without_args_never_signals_witness :
  (@None (list string) = None \/ @None (list string) = Some [])
  /\ outcome (MCPClient_aenter sim_host
                (MCPClient_init None (Some "/usr/bin/node") None
                   (Some "/repo") 2) sim_launched)
     = inr (MkMCPClient (StdioTransport (Some "/usr/bin/node") []
                           (Some "/repo"))
              true None (Some "/usr/bin/node") None 2)
  /\ server_pid (MkMCPClient (StdioTransport (Some "/usr/bin/node") []
                                (Some "/repo"))
                   true None (Some "/usr/bin/node") None 2) = None
  /\ forall w2,
       MCPClient_aexit sim_host
         (MkMCPClient (StdioTransport (Some "/usr/bin/node") []
                         (Some "/repo"))
            true None (Some "/usr/bin/node") None 2) w2
       = (fst (client_exit sim_host w2), [ClientExit],
          snd (client_exit sim_host w2)).
Proof.
  split; [left; reflexivity|]. split; [reflexivity|].
  exact (session_without_args_never_signals sim_host None
           (Some "/usr/bin/node") None (Some "/repo") 2 sim_launched _
           (or_introl eq_refl) eq_refl).
Defined.

(** X11.  When psutil cannot be imported at the time the session connects,
    the session holds no pid, so leaving it closes the client and never
    reaches the process cleanup. *)
Theorem session_without_psutil_skips_cleanup {W : Type} (H : Host W)
    (self self' : MCPClient) (w : W) :
  server_pid self = None ->
  psutil_importable H (snd (client_enter H (self_transport self) w)) = false ->
  outcome (MCPClient_aenter H self w) = inr self' ->
  server_pid self' = None
  /\ forall w2,
       MCPClient_aexit H self' w2
       = (fst (client_exit H w2), [ClientExit], snd (client_exit H w2)).
Proof.
  intros Hs0 Hi Ho. destruct (aenter_result H _ _ _ Ho) as [Hc Hs].
  assert (Hn : server_pid self' = None).
  { rewrite Hs, (find_server_pid_without_psutil H _ _ _ Hi), Hs0.
    destruct (_ && _); reflexivity. }
  split; [exact Hn|].
  intro w2. apply aexit_without_pid; assumption.
Qed.

Lemma session_without_psutil_skips_cleanup_witness :
  server_pid (MCPClient_init None (Some "/usr/bin/node")
                (Some ["dist/index.js"]) (Some "/repo") 2) = None
  /\ psutil_importable sim_host sim_no_psutil = false
  /\ server_pid (MkMCPClient (StdioTransport (Some "/usr/bin/node")
                                ["dist/index.js"] (Some "/repo"))
                   true None (Some "/usr/bin/node") (Some "dist/index.js") 2)
     = None
  /\ forall w2,
       MCPClient_aexit sim_host
         (MkMCPClient (StdioTransport (Some "/usr/bin/node")
                         ["dist/index.js"] (Some "/repo"))
            true None (Some "/usr/bin/node") (Some "dist/index.js") 2) w2
       = (fst (client_exit sim_host w2), [ClientExit],
          snd (client_exit sim_host w2)).
Proof.
  split; [reflexivity|]. split; [reflexivity|].
  exact (session_without_psutil_skips_cleanup sim_host
           (MCPClient_init None (Some "/usr/bin/node")
              (Some ["dist/index.js"]) (Some "/repo") 2)
           _ sim_no_psutil eq_refl eq_refl eq_refl).
Defined.

(* ------------------------------------------------------------------ *)
(** ** The three programs, from start to end *)

Section Programs.
Context {W : Type} (H : Host W).

Lemma aenter_lifecycle (self : MCPClient) (w : W) :
  lifecycle (trace (MCPClient_aenter H self w))
  = [ClientEnter (self_transport self)].
Proof.
  unfold MCPClient_aenter. run.
  destruct (client_enter H (self_transport self) w) as [[e|[]] w1];
    [reflexivity|].
  assert (Hf : forall c s, exists r,
            find_server_pid H c s w1 = (r, [], w1)).
  { intros c s. destruct (find_server_pid_reads H c s w1) as [Ht Hw].
    destruct (find_server_pid H c s w1) as [[r tr] w2].
    cbn [trace world fst snd] in Ht, Hw. subst. eauto. }
  destruct (truthy_str (command_name self) && truthy_str (script_path self)).
  - destruct (Hf (str_opt (command_name self)) (str_opt (script_path self)))
      as [[e|found] ->]; [reflexivity|].
    destruct (truthy_str (command_name self)
              && negb (Qle_bool (init_delay self) 0)); reflexivity.
  - run.
    destruct (truthy_str (command_name self)
              && negb (Qle_bool (init_delay self) 0)); reflexivity.
Qed.

Lemma cleanup_lifecycle (p : Z) (w : W) :
  exists n,
    lifecycle (trace (cleanup_server_process H p w))
    = firstn n [OpenProcess p; SendSignal p].
Proof.
  destruct (Z.eq_dec p 0) as [->|Hp]; [exists 0; reflexivity|].
  destruct (psutil_importable H w) eqn:Hi.
  - rewrite (cleanup_with_psutil H p w Hp Hi).
    destruct (psutil_Process H p w); [exists 1|exists 2]; reflexivity.
  - rewrite (cleanup_without_psutil H p w Hp Hi). exists 0. reflexivity.
Qed.

Lemma aexit_lifecycle (self : MCPClient) (w : W) :
  client self = true ->
  exists p n,
    lifecycle (trace (MCPClient_aexit H self w))
    = ClientExit :: firstn n [OpenProcess p; SendSignal p].
Proof.
  intro Hc. destruct (server_pid self) as [p|] eqn:Hs.
  - exists p. destruct (Z.eq_dec p 0) as [->|Hp].
    + exists 0. unfold MCPClient_aexit. rewrite Hc, Hs. run.
      destruct (client_exit H w) as [[e|[]] w1]; reflexivity.
    + rewrite (aexit_steps H self p w Hc Hs Hp). run.
      destruct (client_exit H w) as [[e|[]] w1]; [exists 0; reflexivity|].
      destruct (cleanup_lifecycle p w1) as [n Hn]. exists n.
      destruct (cleanup_server_process H p w1) as [[[e|[]] tr] w2];
        cbn [trace fst snd app] in Hn |- *;
        unfold lifecycle in Hn |- *; cbn [filter is_lifecycle];
        rewrite ?filter_app, ?Hn; cbn [filter is_lifecycle];
        rewrite ?app_nil_r; reflexivity.
  - exists 0%Z, 0. rewrite (aexit_without_pid H self w Hc Hs). reflexivity.
Qed.
End Programs.

(** X12.  [main] of MCPClient.py builds its transport with
    [StdioTransport()] before it enters its [try].  If that call raises,
    the exception leaves [main] with nothing printed and nothing connected.
    If it returns a transport, [main] does not raise: it connects that
    transport once, closes the client exactly once when the connection was
    made and not at all otherwise, and neither terminates a transport nor
    touches a process. *)
Theorem attached_main_fails_only_at_construction {W : Type} (H : Host W)
    (inputs : list prompt_result) (w : W) :
  match new_StdioTransport H with
  | inl e => MCPClient_main H inputs w = (inl e, [], w)
  | inr t =>
      outcome (MCPClient_main H inputs w) = inr tt
      /\ lifecycle (trace (MCPClient_main H inputs w))
         = match fst (client_enter H t w) with
           | inr _ => [ClientEnter t; ClientExit]
           | inl _ => [ClientEnter t]
           end
  end.
Proof. apply MCPClient_main_lifecycle. Qed.

(** X13.  [main] of client.py, once Node.js is found: the transport is
    terminated exactly once, as the last release, whether or not the
    connection was made; the client is closed once before it when the
    connection was made.  When the connection fails, its error leaves
    [main], unless terminating raises in its turn. *)
Theorem client_main_terminates_transport_last {W : Type} (H : Host W)
    (inputs : list prompt_result) (w : W) (node_path : string) :
  shutil_which H "node" w = Some node_path -> node_path <> "" ->
  let t := StdioTransport (Some node_path) ["dist/index.js"]
             (Some (project_root H w)) in
  lifecycle (trace (client_main H inputs w))
  = match fst (client_enter H t w) with
    | inr _ => [ClientEnter t; ClientExit; TransportTerminate]
    | inl _ => [ClientEnter t; TransportTerminate]
    end
  /\ match client_enter H t w with
     | (inl e, w1) =>
         outcome (client_main H inputs w)
         = match fst (transport_terminate H w1) with
           | inl e' => inl e'
           | inr _ => inl e
           end
     | (inr _, _) => True
     end.
Proof. apply client_main_lifecycle. Qed.

Lemma client_main_terminates_transport_last_witness :
  shutil_which sim_host_refused "node" sim_launched = Some "/usr/bin/node"
  /\ "/usr/bin/node" <> ""
  /\ lifecycle (trace (client_main sim_host_refused [PromptLine "exit"]
                         sim_launched))
     = [ClientEnter (StdioTransport (Some "/usr/bin/node") ["dist/index.js"]
                       (Some "/repo"));
        TransportTerminate]
  /\ outcome (client_main sim_host_refused [PromptLine "exit"] sim_launched)
     = inl (Exn RuntimeError "connection refused").
Proof.
  assert (Hn : "/usr/bin/node" <> "") by discriminate.
  split; [reflexivity|]. split; [exact Hn|].
  exact (client_main_terminates_transport_last sim_host_refused
           [PromptLine "exit"] sim_launched "/usr/bin/node" eq_refl Hn).
Defined.

(** X14.  Without a Node.js executable both launchers fail before any
    connection attempt: client.py after printing the project root,
    figma_client.py before printing anything; nothing is opened, closed or
    terminated. *)
Theorem launchers_fail_fast_without_node {W : Type} (H : Host W)
    (inputs : list prompt_result) (w : W) :
  shutil_which H "node" w = None \/ shutil_which H "node" w = Some "" ->
  client_main H inputs w
  = (inl node_missing, [Print (cat ["Project root: "; project_root H w])], w)
  /\ figma_client_main H inputs w = (inl node_missing, [], w).
Proof.
  intro Hn. split.
  - apply client_main_without_node. exact Hn.
  - apply figma_client_main_without_node. exact Hn.
Qed.

Lemma launchers_fail_fast_without_node_witness :
  (shutil_which sim_host_no_node "node" sim_launched = None
   \/ shutil_which sim_host_no_node "node" sim_launched = Some "")
  /\ client_main sim_host_no_node [PromptLine "help"] sim_launched
     = (inl node_missing,
        [Print (cat ["Project root: ";
                     project_root sim_host_no_node sim_launched])],
        sim_launched)
  /\ figma_client_main sim_host_no_node [PromptLine "help"] sim_launched
     = (inl node_missing, [], sim_launched).
Proof.
  split; [left; reflexivity|].
  exact (launchers_fail_fast_without_node sim_host_no_node
           [PromptLine "help"] sim_launched (or_introl eq_refl)).
Defined.

(** X15.  [main] of figma_client.py, once Node.js is found, never raises,
    and what it opens and releases is an initial part of: connect, close
    the client, look the server process up, signal it.  So the client is
    closed at most once and only after connecting, and the process is
    signalled at most once and only after the client was closed. *)
Theorem figma_main_releases_in_order {W : Type} (H : Host W)
    (inputs : list prompt_result) (w : W) (node_path : string) :
  shutil_which H "node" w = Some node_path -> node_path <> "" ->
  let t := StdioTransport (Some node_path) ["dist/index.js"]
             (Some (project_root H w)) in
  outcome (figma_client_main H inputs w) = inr tt
  /\ exists p n,
       lifecycle (trace (figma_client_main H inputs w))
       = ClientEnter t
         :: firstn n [ClientExit; OpenProcess p; SendSignal p].
Proof.
  intros Hn Hp t. split; [exact (figma_client_main_returns H inputs w _ Hn Hp)|].
  unfold figma_client_main, get_figma_server_command.
  unfold bind at 1. rewrite Hn.
  destruct (String.eqb_spec node_path "") as [E|_]; [contradiction|].
  unfold ret at 1.
  unfold bind at 1, print at 1, emit at 1.
  unfold bind at 1, print at 1, emit at 1.
  match goal with
  | |- context [try_except ?b any_Exception ?h w] =>
      pose proof (lifecycle_try_except_print b
                    (fun e => cat ["Error: "; msg e]) w) as Ht;
      destruct (try_except b any_Exception h w) as [[r tr] w1];
      rewrite lifecycle_async_with in Ht by (intro s; calm)
  end.
  cbn [trace fst snd app] in Ht |- *.
  rewrite !lifecycle_cons_calm by reflexivity. rewrite Ht. clear Ht.
  pose proof (aenter_lifecycle H
                (MCPClient_init None (Some node_path) (Some ["dist/index.js"])
                   (Some (project_root H w)) 2) w) as Hl.
  destruct (MCPClient_aenter H _ w) as [[[e|self'] tr0] w0] eqn:Ea.
  - cbn [trace fst snd] in Hl. rewrite Hl.
    exists 0%Z, 0. unfold MCPClient_init. cbn [self_transport truthy_str].
    destruct (String.eqb_spec node_path ""); [contradiction|]. reflexivity.
  - cbn [trace fst snd] in Hl. rewrite Hl.
    assert (Hc : client self' = true).
    { eapply aenter_result. rewrite Ea. reflexivity. }
    destruct (aexit_lifecycle H self'
                (world (bind
                  (print "MCP Client connected to Figma server via STDIO.")
                  (fun _ => run_interactive_session H inputs) w0)) Hc)
      as (p & n & Hx).
    exists p, (S n). rewrite Hx.
    unfold MCPClient_init. cbn [self_transport truthy_str].
    destruct (String.eqb_spec node_path ""); [contradiction|]. reflexivity.
Qed.

Lemma figma_main_releases_in_order_witness :
  shutil_which sim_host "node" sim_launched = Some "/usr/bin/node"
  /\ "/usr/bin/node" <> ""
  /\ outcome (figma_client_main sim_host [PromptLine "add, {}"] sim_launched)
     = inr tt
  /\ exists p n,
       lifecycle (trace (figma_client_main sim_host [PromptLine "add, {}"]
                           sim_launched))
       = ClientEnter (StdioTransport (Some "/usr/bin/node")
                        ["dist/index.js"] (Some "/repo"))
         :: firstn n [ClientExit; OpenProcess p; SendSignal p].
Proof.
  assert (Hn : "/usr/bin/node" <> "") by discriminate.
  split; [reflexivity|]. split; [exact Hn|].
  exact (figma_main_releases_in_order sim_host [PromptLine "add, {}"]
           sim_launched "/usr/bin/node" eq_refl Hn).
Defined.

(** X16.  When the reverse lookup raises inside [__aenter__], the client is
    already connected and [__aexit__] never runs: [main] of figma_client.py
    prints the error and returns with the client still open. *)
Theorem lookup_failure_leaves_client_open {W : Type} (H : Host W)
    (inputs : list prompt_result) (w w1 : W) (node_path : string) (e : exn) :
  shutil_which H "node" w = Some node_path -> node_path <> "" ->
  let t := StdioTransport (Some node_path) ["dist/index.js"]
             (Some (project_root H w)) in
  client_enter H t w = (inr tt, w1) ->
  outcome (find_server_pid H node_path "dist/index.js" w1) = inl e ->
  figma_client_main H inputs w
  = (inr tt,
     [Print (cat ["Project root: "; project_root H w]);
      Print (cat ["Running server command: "; node_path; " ";
                  "dist/index.js"]);
      ClientEnter t;
      Print (cat ["Error: "; msg e])],
     w1).
Proof.
  intros Hn Hp t He Hf.
  destruct (find_server_pid_reads H node_path "dist/index.js" w1) as [Ht Hw].
  destruct (find_server_pid H node_path "dist/index.js" w1)
    as [[r tr] w2] eqn:Ef.
  cbn [trace world outcome fst snd] in Ht, Hw, Hf. subst tr w2 r.
  unfold figma_client_main, get_figma_server_command, async_with,
    MCPClient_aenter, MCPClient_init.
  cbn [self_transport client server_pid command_name script_path init_delay
       truthy_str str_opt hd].
  assert (Hq : (node_path =? "") = false)
    by (apply String.eqb_neq; exact Hp).
  run. rewrite Hn, Hq. run. cbn [truthy_str str_opt]. rewrite !Hq.
  cbn [negb andb]. fold t. rewrite He. run.
  change (negb ("dist/index.js" =? "")) with true. cbv iota.
  rewrite Ef. reflexivity.
Qed.

Lemma lookup_failure_leaves_client_open_witness :
  shutil_which sim_host_no_access "node" sim_launched = Some "/usr/bin/node"
  /\ "/usr/bin/node" <> ""
  /\ client_enter sim_host_no_access
       (StdioTransport (Some "/usr/bin/node") ["dist/index.js"]
          (Some "/repo")) sim_launched
     = (inr tt, sim_launched)
  /\ outcome (find_server_pid sim_host_no_access "/usr/bin/node"
                "dist/index.js" sim_launched)
     = inl (Exn RuntimeError "cannot read the process table")
  /\ figma_client_main sim_host_no_access [PromptLine "help"] sim_launched
     = (inr tt,
        [Print (cat ["Project root: ";
                     project_root sim_host_no_access sim_launched]);
         Print (cat ["Running server command: "; "/usr/bin/node"; " ";
                     "dist/index.js"]);
         ClientEnter (StdioTransport (Some "/usr/bin/node") ["dist/index.js"]
                        (Some (project_root sim_host_no_access sim_launched)));
         Print (cat ["Error: ";
                     msg (Exn RuntimeError "cannot read the process table")])],
        sim_launched).
Proof.
  assert (Hn : "/usr/bin/node" <> "") by discriminate.
  split; [reflexivity|]. split; [exact Hn|].
  split; [reflexivity|]. split; [reflexivity|].
  exact (lookup_failure_leaves_client_open sim_host_no_access
           [PromptLine "help"] sim_launched sim_launched "/usr/bin/node"
           (Exn RuntimeError "cannot read the process table")
           eq_refl Hn eq_refl eq_refl).
Defined.

(** X17.  After connecting, [__aenter__] waits the delay exactly when the
    command is a non-empty string and the delay is positive; the pid lookup
    itself never waits. *)
Theorem delay_needs_command_and_positive_delay {W : Type} (H : Host W)
    (self self' : MCPClient) (w : W) :
  outcome (MCPClient_aenter H self w) = inr self' ->
  sleeps (trace (MCPClient_aenter H self w))
  = if truthy_str (command_name self) && negb (Qle_bool (init_delay self) 0)
    then [init_delay self] else [].
Proof.
  unfold MCPClient_aenter. run.
  destruct (client_enter H (self_transport self) w) as [[e|[]] w1];
    [discriminate|].
  assert (Hf : forall c s, exists r,
            find_server_pid H c s w1 = (r, [], w1)).
  { intros c s. destruct (find_server_pid_reads H c s w1) as [Ht Hw].
    destruct (find_server_pid H c s w1) as [[r tr] w2].
    cbn [trace world fst snd] in Ht, Hw. subst. eauto. }
  destruct (truthy_str (command_name self) && truthy_str (script_path self)).
  - destruct (Hf (str_opt (command_name self)) (str_opt (script_path self)))
      as [[e|found] ->]; [discriminate|].
    destruct (truthy_str (command_name self)
              && negb (Qle_bool (init_delay self) 0)); reflexivity.
  - run.
    destruct (truthy_str (command_name self)
              && negb (Qle_bool (init_delay self) 0)); reflexivity.
Qed.

Lemma delay_needs_command_and_positive_delay_witness :
  outcome (MCPClient_aenter sim_host
             (MCPClient_init None (Some "/usr/bin/node")
                (Some ["dist/index.js"]) (Some "/repo") 0) sim_launched)
  = inr (MkMCPClient (StdioTransport (Some "/usr/bin/node")
                        ["dist/index.js"] (Some "/repo"))
           true (Some 4242%Z) (Some "/usr/bin/node") (Some "dist/index.js") 0)
  /\ sleeps (trace (MCPClient_aenter sim_host
                      (MCPClient_init None (Some "/usr/bin/node")
                         (Some ["dist/index.js"]) (Some "/repo") 0)
                      sim_launched))
     = [].
Proof.
  split; [reflexivity|].
  exact (delay_needs_command_and_positive_delay sim_host
           (MCPClient_init None (Some "/usr/bin/node")
              (Some ["dist/index.js"]) (Some "/repo") 0)
           _ sim_launched eq_refl).
Defined.
